(** * AzureOpenAIDocumentEmbedder: a shallow embedding and its properties

    Source: src/haystack/components/embedders/azure_document_embedder.py

    The component prepares one text per document, sends the texts to a
    remote embeddings endpoint in batches, and writes the returned vectors
    back onto the documents.  The remote client, the process environment
    and the logger are effects; they are modelled by explicit state
    passing.  Python [str] values are modelled as byte strings, Python
    [int] as [Z], Python [float] as the primitive binary64 [float]. *)

From Stdlib Require Import Floats.PrimFloat.
From Stdlib Require Ascii String.
From stdpp Require Import gmap strings list pretty.

Local Open Scope string_scope.

(** ** Python values and exceptions *)

(** The values a [Document.meta] mapping may hold.  [PyObject] stands for a
    value of any other class, given by what [str()] returns on it. *)
Inductive PyValue :=
| PyNone
| PyBool (b : bool)
| PyInt (z : Z)
| PyStr (s : string)
| PyObject (str_result : string).

(** [str(v)] *)
Definition py_str (v : PyValue) : string :=
  match v with
  | PyNone => "None"
  | PyBool true => "True"
  | PyBool false => "False"
  | PyInt z => pretty z
  | PyStr s => s
  | PyObject s => s
  end.

(** [v is not None] *)
Definition is_not_None (v : PyValue) : bool :=
  match v with PyNone => false | _ => true end.

(** The exceptions that leave the component.  [TypeError] and [ValueError]
    are raised by the component and the helpers it calls; [ExternalError]
    is any exception other than [APIError] that escapes the remote client. *)
Inductive Exception :=
| TypeError (msg : string)
| ValueError (msg : string)
| ExternalError (descr : string).

Inductive PyResult (A : Type) :=
| Returned (a : A)
| Raised (e : Exception).
Arguments Returned {A} a.
Arguments Raised {A} e.

(** ** Data model *)

Definition Embedding := list float.

Record Document := mkDocument {
  doc_id : string;
  doc_content : option string;
  doc_meta : gmap string PyValue;
  doc_embedding : option Embedding
}.

(** Documents are Python objects, owned by the caller and mutated in place:
    a list of documents is a list of references into a store. *)
Definition loc := nat.
Definition Store := loc -> Document.

Definition set_embedding (d : Document) (emb : Embedding) : Document :=
  {| doc_id := doc_id d; doc_content := doc_content d;
     doc_meta := doc_meta d; doc_embedding := Some emb |}.

(** [doc.embedding = emb] for the object at [l] *)
Definition store_assign (s : Store) (l : loc) (emb : Embedding) : Store :=
  fun l' => if Nat.eqb l' l then set_embedding (s l) emb else s l'.

(** The attributes of the component that [run] reads ([self]). *)
Record Embedder := mkEmbedder {
  azure_deployment : string;
  dimensions : option Z;
  prefix : string;
  suffix : string;
  batch_size : Z;
  progress_bar : bool;
  meta_fields_to_embed : list string;
  embedding_separator : string
}.

(** ** Strings *)

Definition newline : Ascii.ascii := Ascii.ascii_of_nat 10.
Definition space : Ascii.ascii := Ascii.ascii_of_nat 32.

(** [s.replace(old, new)] for one-character [old] and [new] *)
Fixpoint str_replace (old new : Ascii.ascii) (s : string) : string :=
  match s with
  | EmptyString => EmptyString
  | String c rest =>
      String (if Ascii.eqb c old then new else c) (str_replace old new rest)
  end.

(** [sep.join(parts)] *)
Definition str_join (sep : string) (parts : list string) : string :=
  String.concat sep parts.

(** ** An insertion-ordered dict with string keys

    [texts_to_embed] is a Python dict: iteration follows the order in which
    keys were first inserted, and storing under a key that is present
    replaces the value where it stands. *)
Definition OrderedDict (V : Type) := list (string * V).

Fixpoint dict_setitem {V} (d : OrderedDict V) (k : string) (v : V) : OrderedDict V :=
  match d with
  | [] => [(k, v)]
  | (k', v') :: rest =>
      if String.eqb k' k then (k', v) :: rest
      else (k', v') :: dict_setitem rest k v
  end.

Fixpoint dict_get {V} (d : OrderedDict V) (k : string) : option V :=
  match d with
  | [] => None
  | (k', v') :: rest => if String.eqb k' k then Some v' else dict_get rest k
  end.

(** ** Text preparer: [_prepare_texts_to_embed] *)

(** The list comprehension over [self.meta_fields_to_embed]. *)
Fixpoint meta_values_to_embed (fields : list string) (doc : Document) : list string :=
  match fields with
  | [] => []
  | key :: rest =>
      match doc_meta doc !! key with
      | Some v =>
          if is_not_None v then py_str v :: meta_values_to_embed rest doc
          else meta_values_to_embed rest doc
      | None => meta_values_to_embed rest doc
      end
  end.

(** [doc.content or ""] *)
Definition content_or_empty (doc : Document) : string :=
  match doc_content doc with
  | Some s => if String.eqb s "" then "" else s
  | None => ""
  end.

Definition text_to_embed (self : Embedder) (doc : Document) : string :=
  str_replace newline space
    (prefix self
     ++ str_join (embedding_separator self)
          (meta_values_to_embed (meta_fields_to_embed self) doc ++ [content_or_empty doc])
     ++ suffix self).

Fixpoint prepare_loop (self : Embedder) (s : Store) (documents : list loc)
    (texts_to_embed : OrderedDict string) : OrderedDict string :=
  match documents with
  | [] => texts_to_embed
  | l :: rest =>
      let doc := s l in
      prepare_loop self s rest
        (dict_setitem texts_to_embed (doc_id doc) (text_to_embed self doc))
  end.

Definition _prepare_texts_to_embed (self : Embedder) (s : Store) (documents : list loc)
    : OrderedDict string :=
  prepare_loop self s documents [].

(** ** Batching: [more_itertools.batched]

    [batched(iterable, n)] yields tuples of [n] consecutive items, the last
    one possibly shorter, and raises [ValueError] when [n < 1].  Every round
    of its loop takes at least one item, so [length iterable] rounds are
    enough. *)
Fixpoint batched_rounds {A} (rounds : nat) (n : nat) (items : list A) : list (list A) :=
  match rounds with
  | O => []
  | S rounds' =>
      match take n items with
      | [] => []
      | batch => batch :: batched_rounds rounds' n (drop n items)
      end
  end.

Definition batched {A} (iterable : list A) (n : Z) : PyResult (list (list A)) :=
  if (n <? 1)%Z then Raised (ValueError "n must be at least one")
  else Returned (batched_rounds (length iterable) (Z.to_nat n) iterable).

(** ** The remote service *)

Record Usage := mkUsage {
  prompt_tokens : Z;
  total_tokens : Z
}.

(** The keyword arguments of [client.embeddings.create]. *)
Record CreateArgs := mkCreateArgs {
  arg_model : string;
  arg_input : list string;
  arg_dimensions : option Z
}.

Record CreateEmbeddingResponse := mkResponse {
  resp_data : list Embedding;
  resp_model : string;
  resp_usage : Usage
}.

(** How one call of [client.embeddings.create] ends. [api_error] carries
    [str(e)] of the [APIError]. *)
Inductive CallOutcome :=
| CallReturns (response : CreateEmbeddingResponse)
| CallRaisesAPIError (api_error : string)
| CallRaisesOther (descr : string).

(** The [meta] dict of [_embed_batch]. *)
Record Meta := mkMeta {
  meta_model : string;
  meta_usage : Usage
}.

Inductive LogLevel := ERROR.

(** [logger.exception(msg)] logs [msg] at level ERROR. *)
Record LogRecord := mkLogRecord {
  log_level : LogLevel;
  log_message : string
}.

Record RunOutput := mkRunOutput {
  out_documents : list loc;
  out_meta : Meta
}.

(** The argument of [run]: any Python object. *)
Inductive PyObj :=
| ObjDocument (l : loc)
| ObjOther (v : PyValue).

Inductive PyArg :=
| ArgList (items : list PyObj)
| ArgOther (v : PyValue).

Definition isinstance_Document (o : PyObj) : bool :=
  match o with ObjDocument _ => true | ObjOther _ => false end.

Definition document_refs (items : list PyObj) : list loc :=
  omap (fun o => match o with ObjDocument l => Some l | ObjOther _ => None end) items.

Definition run_type_error : Exception :=
  TypeError "Input must be a list of Document instances. For strings, use AzureOpenAITextEmbedder.".

(** ** The batch embedder and [run]

    The remote client is a parameter: a call takes the keyword arguments
    and the state of the outside world and ends in a [CallOutcome].  The
    state threaded through the component holds the document store, the
    world, the log, and the history of remote calls made so far (a ghost
    field: the code never reads it). *)
Section Component.

Variable World : Type.
Variable embeddings_create : CreateArgs -> World -> CallOutcome * World.

Record State := mkState {
  store : Store;
  world : World;
  log : list LogRecord;
  calls : list (CreateArgs * CallOutcome)
}.

(** [self._client.embeddings.create] applied to [args] *)
Definition client_create (args : CreateArgs) (st : State) : CallOutcome * State :=
  let '(outcome, w) := embeddings_create args (world st) in
  (outcome,
   {| store := store st; world := w; log := log st;
      calls := calls st ++ [(args, outcome)] |}).

Definition logger_exception (msg : string) (st : State) : State :=
  {| store := store st; world := world st;
     log := log st ++ [{| log_level := ERROR; log_message := msg |}];
     calls := calls st |}.

Definition failure_message (batch : list (string * string)) (e : string) : string :=
  let ids := str_join ", " (map fst batch) in
  "Failed embedding of documents " ++ ids ++ " caused by " ++ e.

Definition create_args (self : Embedder) (batch : list (string * string)) : CreateArgs :=
  {| arg_model := azure_deployment self;
     arg_input := map snd batch;
     arg_dimensions := dimensions self |}.

(** The update of [meta] after a successful call. *)
Definition update_meta (meta : Meta) (response : CreateEmbeddingResponse) : Meta :=
  if String.eqb (meta_model meta) "" then
    {| meta_model := resp_model response; meta_usage := resp_usage response |}
  else
    {| meta_model := meta_model meta;
       meta_usage :=
         {| prompt_tokens :=
              (prompt_tokens (meta_usage meta) + prompt_tokens (resp_usage response))%Z;
            total_tokens :=
              (total_tokens (meta_usage meta) + total_tokens (resp_usage response))%Z |} |}.

(** The [for batch in ...] loop of [_embed_batch]. The progress bar only
    writes to the terminal and is left out. *)
Fixpoint embed_loop (self : Embedder) (batches : list (list (string * string)))
    (all_embeddings : list Embedding) (meta : Meta) (st : State)
    : PyResult (list Embedding * Meta) * State :=
  match batches with
  | [] => (Returned (all_embeddings, meta), st)
  | batch :: rest =>
      let args := create_args self batch in
      let '(outcome, st1) := client_create args st in
      match outcome with
      | CallRaisesAPIError e =>
          embed_loop self rest all_embeddings meta
            (logger_exception (failure_message batch e) st1)
      | CallRaisesOther e => (Raised (ExternalError e), st1)
      | CallReturns response =>
          let embeddings := resp_data response in
          embed_loop self rest (all_embeddings ++ embeddings)
            (update_meta meta response) st1
      end
  end.

Definition initial_meta : Meta :=
  {| meta_model := ""; meta_usage := {| prompt_tokens := 0; total_tokens := 0 |} |}.

Definition _embed_batch (self : Embedder) (texts_to_embed : OrderedDict string)
    (batch_size : Z) (st : State) : PyResult (list Embedding * Meta) * State :=
  match batched texts_to_embed batch_size with
  | Raised e => (Raised e, st)
  | Returned batches => embed_loop self batches [] initial_meta st
  end.

(** [for doc, emb in zip(documents, embeddings): doc.embedding = emb] *)
Fixpoint assign_embeddings (pairs : list (loc * Embedding)) (s : Store) : Store :=
  match pairs with
  | [] => s
  | (l, emb) :: rest => assign_embeddings rest (store_assign s l emb)
  end.

Definition with_store (st : State) (s : Store) : State :=
  {| store := s; world := world st; log := log st; calls := calls st |}.

Definition run (self : Embedder) (documents : PyArg) (st : State)
    : PyResult RunOutput * State :=
  match documents with
  | ArgList items =>
      if forallb isinstance_Document items then
        let docs := document_refs items in
        let texts_to_embed := _prepare_texts_to_embed self (store st) docs in
        match _embed_batch self texts_to_embed (batch_size self) st with
        | (Raised e, st1) => (Raised e, st1)
        | (Returned (embeddings, meta), st1) =>
            (Returned {| out_documents := docs; out_meta := meta |},
             with_store st1 (assign_embeddings (zip docs embeddings) (store st1)))
        end
      else (Raised run_type_error, st)
  | ArgOther _ => (Raised run_type_error, st)
  end.

End Component.

Arguments store {World} _.
Arguments world {World} _.
Arguments log {World} _.
Arguments calls {World} _.
Arguments mkState {World} _ _ _ _.

(** ** A scripted remote service

    The world is the list of outcomes the service will give, one per call,
    whatever the arguments; a call made after the script has run out ends
    in an exception. *)
Definition Script := list CallOutcome.

Definition scripted_create (args : CreateArgs) (w : Script) : CallOutcome * Script :=
  match w with
  | [] => (CallRaisesOther "script exhausted", [])
  | outcome :: rest => (outcome, rest)
  end.

Definition scripted_state (s : Store) (script : Script) : State Script :=
  {| store := s; world := script; log := []; calls := [] |}.

(** A service that answers every call with one vector per input text (the
    vector holds the length of the text) and a fixed usage record. *)
Fixpoint float_of_nat (n : nat) : float :=
  match n with
  | O => PrimFloat.zero
  | S n' => PrimFloat.add (float_of_nat n') PrimFloat.one
  end.

Definition length_vector (text : string) : Embedding :=
  [float_of_nat (String.length text)].

Definition echo_create (args : CreateArgs) (w : unit) : CallOutcome * unit :=
  (CallReturns {| resp_data := map length_vector (arg_input args);
                  resp_model := "text-embedding-ada-002";
                  resp_usage := {| prompt_tokens := Z.of_nat (length (arg_input args));
                                   total_tokens := Z.of_nat (length (arg_input args)) |} |},
   tt).

Definition plain_doc (i : string) (text : string) : Document :=
  {| doc_id := i; doc_content := Some text; doc_meta := ∅; doc_embedding := None |}.

Definition default_embedder : Embedder :=
  {| azure_deployment := "text-embedding-ada-002";
     dimensions := None;
     prefix := "";
     suffix := "";
     batch_size := 32;
     progress_bar := true;
     meta_fields_to_embed := [];
     embedding_separator := String newline EmptyString |}.

Definition with_batch_size (self : Embedder) (n : Z) : Embedder :=
  {| azure_deployment := azure_deployment self; dimensions := dimensions self;
     prefix := prefix self; suffix := suffix self; batch_size := n;
     progress_bar := progress_bar self;
     meta_fields_to_embed := meta_fields_to_embed self;
     embedding_separator := embedding_separator self |}.

Definition with_meta_fields (self : Embedder) (fields : list string) : Embedder :=
  {| azure_deployment := azure_deployment self; dimensions := dimensions self;
     prefix := prefix self; suffix := suffix self; batch_size := batch_size self;
     progress_bar := progress_bar self;
     meta_fields_to_embed := fields;
     embedding_separator := embedding_separator self |}.

(** ** Construction and serialization *)

(** Modelled from the spec: the class [Secret] of [haystack.utils] is not
    part of the source file.  The specification describes a credential as a
    named secret reference, resolved through an external secret-resolution
    interface at construction time; the source builds its defaults with
    [Secret.from_env_var(name, strict=False)]. *)
Record Secret := from_env_var {
  secret_env_var : string;
  secret_strict : bool
}.

(** [os.environ] *)
Definition Environ := gmap string string.

(** The value passed as [http_client_kwargs]: a dict, or something else
    (of which only the truth value matters). *)
Inductive KwargsValue :=
| KwDict (d : gmap string PyValue)
| KwOther (truthy : bool).

Definition kwargs_truthy (k : KwargsValue) : bool :=
  match k with
  | KwDict d => negb (bool_decide (d = ∅))
  | KwOther b => b
  end.

Definition endpoint_error : Exception :=
  ValueError "Please provide an Azure endpoint or set the environment variable AZURE_OPENAI_ENDPOINT.".

Definition credential_error : Exception :=
  ValueError "Please provide an API key or an Azure Active Directory token.".

Definition kwargs_error : Exception :=
  TypeError "The parameter 'http_client_kwargs' must be a dictionary.".

(** [x or y] on optional strings: [None] and the empty string are false. *)
Definition str_or (x y : option string) : option string :=
  match x with
  | Some s => if String.eqb s "" then y else Some s
  | None => y
  end.

(** [not x] on an optional string *)
Definition str_falsy (x : option string) : bool :=
  match x with
  | Some s => String.eqb s ""
  | None => true
  end.

Set Implicit Arguments.

Section Construction.

(** The token provider is a Python callable; the client and the HTTP
    client are objects of external libraries. *)
Variable Callable : Type.
Variable Client : Type.
Variable HttpClient : Type.
Variable World : Type.

(** The value passed as [azure_ad_token_provider]: a callable, or, after
    a deserialization that left the name in place, a string. *)
Inductive TokenProvider :=
| ProviderCallable (f : Callable)
| ProviderName (name : string).

Definition provider_truthy (p : TokenProvider) : bool :=
  match p with
  | ProviderCallable _ => true
  | ProviderName name => negb (String.eqb name "")
  end.

(** The arguments of [__init__]. *)
Record InitArgs := mkInitArgs {
  init_azure_endpoint : option string;
  init_api_version : option string;
  init_azure_deployment : string;
  init_dimensions : option Z;
  init_api_key : option Secret;
  init_azure_ad_token : option Secret;
  init_organization : option string;
  init_prefix : string;
  init_suffix : string;
  init_batch_size : Z;
  init_progress_bar : bool;
  init_meta_fields_to_embed : option (list string);
  init_embedding_separator : string;
  init_timeout : option float;
  init_max_retries : option Z;
  init_default_headers : option (gmap string string);
  init_azure_ad_token_provider : option TokenProvider;
  init_http_client_kwargs : option KwargsValue
}.

(** The attributes [__init__] sets on [self], the client apart. *)
Record Attributes := mkAttributes {
  self_api_key : option Secret;
  self_azure_ad_token : option Secret;
  self_api_version : option string;
  self_azure_endpoint : string;
  self_azure_deployment : string;
  self_dimensions : option Z;
  self_organization : option string;
  self_prefix : string;
  self_suffix : string;
  self_batch_size : Z;
  self_progress_bar : bool;
  self_meta_fields_to_embed : list string;
  self_embedding_separator : string;
  self_timeout : float;
  self_max_retries : Z;
  self_default_headers : gmap string string;
  self_azure_ad_token_provider : option TokenProvider;
  self_http_client_kwargs : option KwargsValue
}.

Record Component := mkComponent {
  attributes : Attributes;
  _client : Client
}.

(** The part of the attributes that [run] reads. *)
Definition embedder_of (a : Attributes) : Embedder :=
  {| azure_deployment := self_azure_deployment a;
     dimensions := self_dimensions a;
     prefix := self_prefix a;
     suffix := self_suffix a;
     batch_size := self_batch_size a;
     progress_bar := self_progress_bar a;
     meta_fields_to_embed := self_meta_fields_to_embed a;
     embedding_separator := self_embedding_separator a |}.

(** The keyword arguments of the [AzureOpenAI] constructor. *)
Record ClientArgs := mkClientArgs {
  client_api_version : option string;
  client_azure_endpoint : string;
  client_azure_deployment : string;
  client_azure_ad_token_provider : option TokenProvider;
  client_api_key : option string;
  client_azure_ad_token : option string;
  client_organization : option string;
  client_timeout : float;
  client_max_retries : Z;
  client_default_headers : gmap string string;
  client_http_client : option HttpClient
}.

(** External operations: the builtins [float] and [int] on strings, the
    secret-resolution interface, and the constructors of the two clients. *)
Variable py_float : string -> PyResult float.
Variable py_int : string -> PyResult Z.
Variable resolve_value : Secret -> Environ -> PyResult (option string).
Variable httpx_Client : gmap string PyValue -> World -> PyResult HttpClient * World.
Variable AzureOpenAI : ClientArgs -> World -> PyResult Client * World.

(** Computations that may raise and may act on the world. *)
Definition M (A : Type) : Type := World -> PyResult A * World.

Definition ret {A} (a : A) : M A := fun w => (Returned a, w).
Definition raise {A} (e : Exception) : M A := fun w => (Raised e, w).
Definition bind {A B} (m : M A) (k : A -> M B) : M B :=
  fun w => match m w with
           | (Returned a, w') => k a w'
           | (Raised e, w') => (Raised e, w')
           end.
Definition pure_call {A} (r : PyResult A) : M A := fun w => (r, w).

Notation "'let*' x ':=' m 'in' k" := (bind m (fun x => k))
  (at level 10, x name, m at level 100, k at level 200).

(** [secret.resolve_value() if secret is not None else None] *)
Definition resolve_optional (secret : option Secret) (environ : Environ) : M (option string) :=
  match secret with
  | Some s => pure_call (resolve_value s environ)
  | None => ret None
  end.

Definition _init_http_client (a : Attributes) : M (option HttpClient) :=
  match self_http_client_kwargs a with
  | Some k =>
      if kwargs_truthy k then
        match k with
        | KwDict d => let* c := httpx_Client d in ret (Some c)
        | KwOther _ => raise kwargs_error
        end
      else ret None
  | None => ret None
  end.

(** The [AzureOpenAI(...)] call that ends [__init__]; its arguments are
    evaluated from left to right. *)
Definition create_client (self : Attributes) (environ : Environ) : M Client :=
  let* api_key := resolve_optional (self_api_key self) environ in
  let* azure_ad_token := resolve_optional (self_azure_ad_token self) environ in
  let* http_client := _init_http_client self in
  AzureOpenAI
    {| client_api_version := self_api_version self;
       client_azure_endpoint := self_azure_endpoint self;
       client_azure_deployment := self_azure_deployment self;
       client_azure_ad_token_provider := self_azure_ad_token_provider self;
       client_api_key := api_key;
       client_azure_ad_token := azure_ad_token;
       client_organization := self_organization self;
       client_timeout := self_timeout self;
       client_max_retries := self_max_retries self;
       client_default_headers := self_default_headers self;
       client_http_client := http_client |}.

(** [timeout if timeout is not None else float(os.environ.get("OPENAI_TIMEOUT", "30.0"))] *)
Definition timeout_of (args : InitArgs) (environ : Environ) : PyResult float :=
  match init_timeout args with
  | Some t => Returned t
  | None => py_float (default "30.0" (environ !! "OPENAI_TIMEOUT"))
  end.

(** [max_retries if max_retries is not None else int(os.environ.get("OPENAI_MAX_RETRIES", "5"))] *)
Definition max_retries_of (args : InitArgs) (environ : Environ) : PyResult Z :=
  match init_max_retries args with
  | Some n => Returned n
  | None => py_int (default "5" (environ !! "OPENAI_MAX_RETRIES"))
  end.

(** The assignments [self.api_key = api_key] to
    [self.http_client_kwargs = http_client_kwargs]. *)
Definition set_attributes (args : InitArgs) (azure_endpoint : string)
    (timeout : float) (max_retries : Z) : Attributes :=
  {| self_api_key := init_api_key args;
     self_azure_ad_token := init_azure_ad_token args;
     self_api_version := init_api_version args;
     self_azure_endpoint := azure_endpoint;
     self_azure_deployment := init_azure_deployment args;
     self_dimensions := init_dimensions args;
     self_organization := init_organization args;
     self_prefix := init_prefix args;
     self_suffix := init_suffix args;
     self_batch_size := init_batch_size args;
     self_progress_bar := init_progress_bar args;
     self_meta_fields_to_embed := default [] (init_meta_fields_to_embed args);
     self_embedding_separator := init_embedding_separator args;
     self_timeout := timeout;
     self_max_retries := max_retries;
     self_default_headers := default ∅ (init_default_headers args);
     self_azure_ad_token_provider := init_azure_ad_token_provider args;
     self_http_client_kwargs := init_http_client_kwargs args |}.

(** [__init__].  The endpoint is the argument or, when that is [None] or
    empty, the environment variable; past the first check it is a
    non-empty string. *)
Definition __init__ (args : InitArgs) (environ : Environ) : M Component :=
  let azure_endpoint :=
    str_or (init_azure_endpoint args) (environ !! "AZURE_OPENAI_ENDPOINT") in
  if str_falsy azure_endpoint then raise endpoint_error
  else if bool_decide (init_api_key args = None ∧ init_azure_ad_token args = None)
  then raise credential_error
  else
    let* timeout := pure_call (timeout_of args environ) in
    let* max_retries := pure_call (max_retries_of args environ) in
    let self := set_attributes args (default "" azure_endpoint) timeout max_retries in
    let* client := create_client self environ in
    ret {| attributes := self; _client := client |}.

(** ** Serialization *)

(** Modelled from the spec: [Secret.to_dict], [Secret.from_dict] (behind
    [deserialize_secrets_inplace]), [serialize_callable] and
    [deserialize_callable] of [haystack.utils] are not part of the source
    file.  The specification describes the serialized credential as an
    opaque secret-reference descriptor and the serialized token provider
    as a name that an external registry resolves. *)
Variable SecretDescriptor : Type.
Variable Secret_to_dict : Secret -> SecretDescriptor.
Variable Secret_from_dict : SecretDescriptor -> PyResult Secret.
Variable serialize_callable : TokenProvider -> PyResult string.
Variable deserialize_callable : string -> PyResult Callable.

(** The [init_parameters] of the serialized form. *)
Record InitParameters := mkInitParameters {
  ser_azure_endpoint : string;
  ser_azure_deployment : string;
  ser_dimensions : option Z;
  ser_organization : option string;
  ser_api_version : option string;
  ser_prefix : string;
  ser_suffix : string;
  ser_batch_size : Z;
  ser_progress_bar : bool;
  ser_meta_fields_to_embed : list string;
  ser_embedding_separator : string;
  ser_api_key : option SecretDescriptor;
  ser_azure_ad_token : option SecretDescriptor;
  ser_timeout : float;
  ser_max_retries : Z;
  ser_default_headers : gmap string string;
  ser_azure_ad_token_provider : option string;
  ser_http_client_kwargs : option KwargsValue
}.

(** Modelled from the spec: [default_to_dict] and [default_from_dict] of
    [haystack] are not part of the source file.  The serialized form is a
    record of the class name and the configuration fields, and
    reconstruction calls the constructor on those fields. *)
Record SerializedComponent := mkSerialized {
  ser_type : string;
  init_parameters : InitParameters
}.

Definition class_name : string :=
  "haystack.components.embedders.azure_document_embedder.AzureOpenAIDocumentEmbedder".

(** Modelled from the spec: [default_to_dict] (not in the source file)
    builds the record from the class name and the configuration fields. *)
Definition default_to_dict (params : InitParameters) : SerializedComponent :=
  {| ser_type := class_name; init_parameters := params |}.

(** Modelled from the spec: [default_from_dict] (not in the source file)
    reconstructs by calling the constructor on the configuration fields. *)
Definition default_from_dict (args : InitArgs) (environ : Environ) : M Component :=
  __init__ args environ.

Definition to_dict (c : Component) : PyResult SerializedComponent :=
  let self := attributes c in
  let provider_name :=
    match self_azure_ad_token_provider self with
    | Some p =>
        if provider_truthy p then
          match serialize_callable p with
          | Returned name => Returned (Some name)
          | Raised e => Raised e
          end
        else Returned None
    | None => Returned None
    end in
  match provider_name with
  | Raised e => Raised e
  | Returned azure_ad_token_provider_name =>
      Returned (default_to_dict
        {| ser_azure_endpoint := self_azure_endpoint self;
           ser_azure_deployment := self_azure_deployment self;
           ser_dimensions := self_dimensions self;
           ser_organization := self_organization self;
           ser_api_version := self_api_version self;
           ser_prefix := self_prefix self;
           ser_suffix := self_suffix self;
           ser_batch_size := self_batch_size self;
           ser_progress_bar := self_progress_bar self;
           ser_meta_fields_to_embed := self_meta_fields_to_embed self;
           ser_embedding_separator := self_embedding_separator self;
           ser_api_key := Secret_to_dict <$> self_api_key self;
           ser_azure_ad_token := Secret_to_dict <$> self_azure_ad_token self;
           ser_timeout := self_timeout self;
           ser_max_retries := self_max_retries self;
           ser_default_headers := self_default_headers self;
           ser_azure_ad_token_provider := azure_ad_token_provider_name;
           ser_http_client_kwargs := self_http_client_kwargs self |})
  end.

(** One key of [deserialize_secrets_inplace]: a descriptor that is present
    and not [None] is replaced by the secret it describes. *)
Definition deserialize_secret (d : option SecretDescriptor) : M (option Secret) :=
  match d with
  | Some descriptor => let* s := pure_call (Secret_from_dict descriptor) in ret (Some s)
  | None => ret None
  end.

Definition from_dict (data : SerializedComponent) (environ : Environ) : M Component :=
  let params := init_parameters data in
  let* api_key := deserialize_secret (ser_api_key params) in
  let* azure_ad_token := deserialize_secret (ser_azure_ad_token params) in
  let* azure_ad_token_provider :=
    match ser_azure_ad_token_provider params with
    | Some name =>
        if negb (String.eqb name "") then
          let* f := pure_call (deserialize_callable name) in ret (Some (ProviderCallable f))
        else ret (Some (ProviderName name))
    | None => ret None
    end in
  default_from_dict
    {| init_azure_endpoint := Some (ser_azure_endpoint params);
       init_api_version := ser_api_version params;
       init_azure_deployment := ser_azure_deployment params;
       init_dimensions := ser_dimensions params;
       init_api_key := api_key;
       init_azure_ad_token := azure_ad_token;
       init_organization := ser_organization params;
       init_prefix := ser_prefix params;
       init_suffix := ser_suffix params;
       init_batch_size := ser_batch_size params;
       init_progress_bar := ser_progress_bar params;
       init_meta_fields_to_embed := Some (ser_meta_fields_to_embed params);
       init_embedding_separator := ser_embedding_separator params;
       init_timeout := Some (ser_timeout params);
       init_max_retries := Some (ser_max_retries params);
       init_default_headers := Some (ser_default_headers params);
       init_azure_ad_token_provider := azure_ad_token_provider;
       init_http_client_kwargs := ser_http_client_kwargs params |}
    environ.

End Construction.

Unset Implicit Arguments.

Arguments ProviderCallable {Callable} f.
Arguments ProviderName {Callable} name.

(** * Properties *)

(** ** Text preparer *)

(** The prepared text in the words of the specification: keep the
    configured metadata fields that are present and non-null, stringify
    them, add the content (empty when absent), join with the separator,
    wrap in prefix and suffix, and turn every newline into a space. *)
Definition present_and_non_null (doc : Document) (key : string) : bool :=
  match doc_meta doc !! key with
  | Some PyNone => false
  | Some _ => true
  | None => false
  end.

Definition stringified_field (doc : Document) (key : string) : string :=
  from_option py_str "" (doc_meta doc !! key).

Definition newline_to_space (c : Ascii.ascii) : Ascii.ascii :=
  if decide (c = newline) then space else c.

Definition spec_prepared_text (self : Embedder) (doc : Document) : string :=
  let kept := List.filter (present_and_non_null doc) (meta_fields_to_embed self) in
  let parts := (map (stringified_field doc) kept ++ [default "" (doc_content doc)])%list in
  let joined := prefix self ++ str_join (embedding_separator self) parts ++ suffix self in
  String.string_of_list_ascii (map newline_to_space (String.list_ascii_of_string joined)).

Lemma str_replace_newline s :
  str_replace newline space s
  = String.string_of_list_ascii (map newline_to_space (String.list_ascii_of_string s)).
Proof.
  induction s as [|c s IH]; simpl; [reflexivity|].
  rewrite IH. f_equal. unfold newline_to_space.
  destruct (Ascii.eqb_spec c newline); case_decide; congruence.
Qed.

Lemma meta_values_filter_map fields doc :
  meta_values_to_embed fields doc
  = map (stringified_field doc) (List.filter (present_and_non_null doc) fields).
Proof.
  induction fields as [|key fields IH]; simpl; [reflexivity|].
  unfold present_and_non_null, stringified_field in *.
  destruct (doc_meta doc !! key) as [v|] eqn:Hkey; [|exact IH].
  destruct v; simpl; rewrite ?Hkey; simpl; congruence.
Qed.

Lemma content_or_empty_default doc :
  content_or_empty doc = default "" (doc_content doc).
Proof.
  unfold content_or_empty. destruct (doc_content doc) as [s|]; simpl; [|reflexivity].
  destruct (String.eqb_spec s ""); congruence.
Qed.

Lemma text_to_embed_spec self doc :
  text_to_embed self doc = spec_prepared_text self doc.
Proof.
  unfold text_to_embed, spec_prepared_text.
  rewrite str_replace_newline, meta_values_filter_map, content_or_empty_default.
  reflexivity.
Qed.

(** No newline survives in a prepared text. *)
Lemma str_replace_no_newline s :
  newline ∉ String.list_ascii_of_string (str_replace newline space s).
Proof.
  induction s as [|c s IH]; simpl; [apply not_elem_of_nil|].
  apply not_elem_of_cons. split; [|exact IH].
  destruct (Ascii.eqb_spec c newline); [discriminate|congruence].
Qed.

(** Facts about the ordered dict. *)
Lemma dict_get_setitem_eq {V} (d : OrderedDict V) k v :
  dict_get (dict_setitem d k v) k = Some v.
Proof.
  induction d as [|[k' v'] d IH]; simpl.
  - rewrite String.eqb_refl. reflexivity.
  - destruct (String.eqb k' k) eqn:E; simpl; rewrite E; [reflexivity|exact IH].
Qed.

Lemma dict_get_setitem_ne {V} (d : OrderedDict V) k k' v :
  k ≠ k' → dict_get (dict_setitem d k v) k' = dict_get d k'.
Proof.
  intros Hne. induction d as [|[k0 v0] d IH]; simpl.
  - destruct (String.eqb_spec k k'); congruence.
  - destruct (String.eqb_spec k0 k) as [->|Hk]; simpl.
    + destruct (String.eqb_spec k k'); congruence.
    + rewrite IH. reflexivity.
Qed.

Lemma prepare_loop_app self s docs1 docs2 acc :
  prepare_loop self s (docs1 ++ docs2) acc
  = prepare_loop self s docs2 (prepare_loop self s docs1 acc).
Proof. revert acc. induction docs1 as [|l docs1 IH]; intros acc; simpl; auto. Qed.

Definition pizza_doc : Document :=
  plain_doc "doc-1" "I love pizza!".

Definition pizza_doc_with_topic : Document :=
  {| doc_id := "doc-1"; doc_content := Some "I love pizza!";
     doc_meta := {[ "topic" := PyStr "food" ]}; doc_embedding := None |}.

(** C5: the text prepared for a document is prefix, then the join by the
    separator of the stringified present and non-null configured metadata
    fields (in configured order) followed by the content (empty when
    absent), then suffix, with every newline replaced by a space; the
    mapping built by the preparer stores that text under the document's
    identifier; and the two pizza examples come out as stated. *)
Theorem C5_prepared_text :
  (∀ self doc, text_to_embed self doc = spec_prepared_text self doc)
  ∧ (∀ self doc, newline ∉ String.list_ascii_of_string (text_to_embed self doc))
  ∧ (∀ self s documents l,
       dict_get (_prepare_texts_to_embed self s (documents ++ [l])) (doc_id (s l))
       = Some (spec_prepared_text self (s l)))
  ∧ (∀ self s l,
       _prepare_texts_to_embed self s [l] = [(doc_id (s l), spec_prepared_text self (s l))])
  ∧ text_to_embed default_embedder pizza_doc = "I love pizza!"
  ∧ text_to_embed (with_meta_fields default_embedder ["topic"]) pizza_doc_with_topic
    = "food I love pizza!".
Proof.
  split; [exact text_to_embed_spec|].
  split; [intros; apply str_replace_no_newline|].
  split.
  { intros self s documents l. unfold _prepare_texts_to_embed.
    rewrite prepare_loop_app. simpl.
    rewrite dict_get_setitem_eq, text_to_embed_spec. reflexivity. }
  split.
  { intros self s l. unfold _prepare_texts_to_embed. simpl.
    rewrite text_to_embed_spec. reflexivity. }
  split; vm_compute; reflexivity.
Qed.

(** ** Batching *)

Local Open Scope list_scope.
Local Open Scope nat_scope.

Section Batched.
Context {A : Type}.
Implicit Types (items : list A) (n rounds : nat).

Lemma batched_rounds_nil rounds n : batched_rounds rounds n (@nil A) = [].
Proof. destruct rounds; simpl; [reflexivity|]. rewrite take_nil. reflexivity. Qed.

Lemma batched_rounds_cons rounds n x items :
  0 < n →
  batched_rounds (S rounds) n (x :: items)
  = take n (x :: items) :: batched_rounds rounds n (drop n (x :: items)).
Proof. intros Hn. destruct n as [|n]; [lia|]. reflexivity. Qed.

(** Joining the groups gives the entries back, in order. *)
Lemma batched_rounds_concat rounds n items :
  0 < n → length items ≤ rounds → concat (batched_rounds rounds n items) = items.
Proof.
  intros Hn. revert items.
  induction rounds as [|rounds IH]; intros items Hlen.
  - destruct items; simpl in *; [reflexivity|lia].
  - destruct items as [|x items]; [rewrite batched_rounds_nil; reflexivity|].
    rewrite batched_rounds_cons by assumption.
    change (concat (?g :: ?gs)) with (g ++ concat gs)%list.
    rewrite IH; [apply take_drop|].
    rewrite length_drop. simpl in *. lia.
Qed.

(** No group is empty and none is larger than [n]. *)
Lemma batched_rounds_sizes rounds n items :
  0 < n → Forall (λ g, 0 < length g ≤ n) (batched_rounds rounds n items).
Proof.
  intros Hn. revert items.
  induction rounds as [|rounds IH]; intros items; [constructor|].
  destruct items as [|x items]; [rewrite batched_rounds_nil; constructor|].
  rewrite batched_rounds_cons by assumption.
  constructor; [|apply IH].
  rewrite length_take. simpl. lia.
Qed.

(** Every group that has a successor is full. *)
Lemma batched_rounds_full rounds n items i g :
  0 < n →
  batched_rounds rounds n items !! i = Some g →
  S i < length (batched_rounds rounds n items) →
  length g = n.
Proof.
  intros Hn. revert items i.
  induction rounds as [|rounds IH]; intros items i; [discriminate|].
  destruct items as [|x items]; [rewrite batched_rounds_nil; discriminate|].
  rewrite batched_rounds_cons by assumption.
  destruct i as [|i]; simpl.
  - intros [= <-] Hlt.
    destruct (drop n (x :: items)) as [|y rest] eqn:Hdrop.
    + rewrite batched_rounds_nil in Hlt. simpl in Hlt. lia.
    + apply (f_equal length) in Hdrop. rewrite length_drop in Hdrop.
      rewrite length_take. simpl in *. lia.
  - intros Hg Hlt. apply (IH _ _ Hg). lia.
Qed.

End Batched.

(** What [batched] yields for a positive [n]: consecutive groups, in the
    original order, each of at least one and at most [n] entries, every
    group but the last of exactly [n]; five entries with [n = 2] give
    groups of sizes 2, 2, 1; and the texts of the request built from a
    group are the texts of the group, in order. *)
Lemma batched_partition (self : Embedder) (texts_to_embed : OrderedDict string) (n : Z) :
  (1 ≤ n)%Z →
  ∃ groups,
    batched texts_to_embed n = Returned groups
    ∧ concat groups = texts_to_embed
    ∧ Forall (λ g, 0 < length g ≤ Z.to_nat n) groups
    ∧ (∀ i g, groups !! i = Some g → S i < length groups → length g = Z.to_nat n)
    ∧ (∀ g, g ∈ groups → arg_input (create_args self g) = map snd g)
    ∧ (length texts_to_embed = 5 → n = 2%Z → map length groups = [2; 2; 1]).
Proof.
  intros Hn. unfold batched.
  destruct (Z.ltb_spec n 1) as [|_]; [lia|].
  assert (Hpos : 0 < Z.to_nat n) by lia.
  eexists. split; [reflexivity|].
  split; [apply batched_rounds_concat; [exact Hpos|lia]|].
  split; [apply batched_rounds_sizes; exact Hpos|].
  split; [intros i g; apply batched_rounds_full; exact Hpos|].
  split; [reflexivity|].
  intros Hlen ->.
  destruct texts_to_embed as [|a [|b [|c [|d [|e [|f rest]]]]]]; try discriminate.
  reflexivity.
Qed.

Definition five_texts : OrderedDict string :=
  [("d1", "one"); ("d2", "two"); ("d3", "three"); ("d4", "four"); ("d5", "five")].

Example batched_five_by_two :
  batched five_texts 2
  = Returned [[("d1", "one"); ("d2", "two")]; [("d3", "three"); ("d4", "four")];
              [("d5", "five")]].
Proof. reflexivity. Qed.

(** ** The batch loop, read off the history of remote calls *)

Definition response_of (o : CallOutcome) : option CreateEmbeddingResponse :=
  match o with CallReturns r => Some r | _ => None end.

(** The responses of the calls that succeeded, in call order. *)
Definition responses (outs : list CallOutcome) : list CreateEmbeddingResponse :=
  omap response_of outs.

Definition returned_vectors (outs : list CallOutcome) : list Embedding :=
  concat (map resp_data (responses outs)).

(** The log record a batch leaves when its call ends as [o]. *)
Definition failure_record (bo : list (string * string) * CallOutcome) : option LogRecord :=
  match bo.2 with
  | CallRaisesAPIError e =>
      Some {| log_level := ERROR; log_message := failure_message bo.1 e |}
  | _ => None
  end.

Definition api_failure_or_success (o : CallOutcome) : Prop :=
  ∀ d, o ≠ CallRaisesOther d.

Definition new_calls {World} (st st' : State World) : list (CreateArgs * CallOutcome) :=
  drop (length (calls st)) (calls st').

Section Loop.

Variable World : Type.
Variable embeddings_create : CreateArgs -> World -> CallOutcome * World.

Local Abbreviation embed_loop := (embed_loop World embeddings_create).
Local Abbreviation _embed_batch := (_embed_batch World embeddings_create).
Local Abbreviation run := (run World embeddings_create).

(** One round of the loop whose call raises [APIError]: nothing is added
    to the vectors or to [meta], one record is logged, one call was made,
    and the loop goes on with the remaining batches. *)
Lemma embed_loop_api_error self batch rest embs meta st e w :
  embeddings_create (create_args self batch) (world st) = (CallRaisesAPIError e, w) →
  embed_loop self (batch :: rest) embs meta st
  = embed_loop self rest embs meta
      {| store := store st; world := w;
         log := log st ++ [{| log_level := ERROR; log_message := failure_message batch e |}];
         calls := calls st ++ [(create_args self batch, CallRaisesAPIError e)] |}.
Proof. intros Hcall. simpl. unfold client_create. rewrite Hcall. reflexivity. Qed.

Lemma embed_loop_success self batch rest embs meta st r w :
  embeddings_create (create_args self batch) (world st) = (CallReturns r, w) →
  embed_loop self (batch :: rest) embs meta st
  = embed_loop self rest (embs ++ resp_data r) (update_meta meta r)
      {| store := store st; world := w; log := log st;
         calls := calls st ++ [(create_args self batch, CallReturns r)] |}.
Proof. intros Hcall. simpl. unfold client_create. rewrite Hcall. reflexivity. Qed.

Lemma embed_loop_other self batch rest embs meta st d w :
  embeddings_create (create_args self batch) (world st) = (CallRaisesOther d, w) →
  embed_loop self (batch :: rest) embs meta st
  = (Raised (ExternalError d),
      {| store := store st; world := w; log := log st;
         calls := calls st ++ [(create_args self batch, CallRaisesOther d)] |}).
Proof. intros Hcall. simpl. unfold client_create. rewrite Hcall. reflexivity. Qed.

(** What a run of the loop leaves behind, in terms of the outcomes [outs]
    of the calls it made. *)
Definition loop_post (self : Embedder) (batches : list (list (string * string)))
    (embs : list Embedding) (meta : Meta) (st : State World)
    (res : PyResult (list Embedding * Meta)) (st' : State World)
    (outs : list CallOutcome) : Prop :=
  length outs ≤ length batches
  ∧ calls st' = calls st ++ zip (map (create_args self) batches) outs
  ∧ store st' = store st
  ∧ log st' = log st ++ omap failure_record (zip batches outs)
  ∧ match res with
    | Returned (e, m) =>
        length outs = length batches
        ∧ Forall api_failure_or_success outs
        ∧ e = embs ++ returned_vectors outs
        ∧ m = fold_left update_meta (responses outs) meta
    | Raised x => ∃ d, x = ExternalError d ∧ CallRaisesOther d ∈ outs
    end.

Lemma embed_loop_trace self batches : ∀ embs meta st res st',
  embed_loop self batches embs meta st = (res, st') →
  ∃ outs, loop_post self batches embs meta st res st' outs.
Proof.
  induction batches as [|batch rest IH]; intros embs meta st res st' Hrun.
  - simpl in Hrun. injection Hrun as <- <-. exists [].
    repeat split; simpl; rewrite ?app_nil_r; auto.
  - destruct (embeddings_create (create_args self batch) (world st)) as [o w] eqn:Hcall.
    destruct o as [r|e|d].
    + rewrite (embed_loop_success _ _ _ _ _ _ _ _ Hcall) in Hrun.
      apply IH in Hrun as (outs & Hlen & Hcalls & Hstore & Hlog & Hres).
      exists (CallReturns r :: outs). unfold loop_post. simpl in *.
      split; [lia|]. split; [rewrite Hcalls, <- app_assoc; reflexivity|].
      split; [exact Hstore|]. split; [exact Hlog|].
      destruct res as [[e' m']|x].
      * destruct Hres as (Hl & Hall & -> & ->).
        split; [lia|]. split; [constructor; [intros d; discriminate|exact Hall]|].
        split; [|reflexivity].
        unfold returned_vectors. simpl. rewrite app_assoc. reflexivity.
      * destruct Hres as (d & -> & Hin). exists d. split; [reflexivity|].
        apply elem_of_cons. right. exact Hin.
    + rewrite (embed_loop_api_error _ _ _ _ _ _ _ _ Hcall) in Hrun.
      apply IH in Hrun as (outs & Hlen & Hcalls & Hstore & Hlog & Hres).
      exists (CallRaisesAPIError e :: outs). unfold loop_post. simpl in *.
      split; [lia|]. split; [rewrite Hcalls, <- app_assoc; reflexivity|].
      split; [exact Hstore|]. split; [rewrite Hlog, <- app_assoc; reflexivity|].
      destruct res as [[e' m']|x].
      * destruct Hres as (Hl & Hall & -> & ->).
        split; [lia|]. split; [constructor; [intros d; discriminate|exact Hall]|].
        split; reflexivity.
      * destruct Hres as (d & -> & Hin). exists d. split; [reflexivity|].
        apply elem_of_cons. right. exact Hin.
    + rewrite (embed_loop_other _ _ _ _ _ _ _ _ Hcall) in Hrun.
      injection Hrun as <- <-.
      exists [CallRaisesOther d]. unfold loop_post. simpl.
      rewrite !zip_with_nil_r. simpl.
      split; [lia|]. split; [reflexivity|]. split; [reflexivity|].
      split; [rewrite app_nil_r; reflexivity|].
      exists d. split; [reflexivity|]. apply list_elem_of_singleton. reflexivity.
Qed.

(** The calls a run of the loop adds to the history. *)
Lemma loop_post_new_calls self batches embs meta st res st' outs :
  loop_post self batches embs meta st res st' outs →
  new_calls st st' = zip (map (create_args self) batches) outs
  ∧ map snd (new_calls st st') = outs.
Proof.
  intros (Hlen & Hcalls & _). unfold new_calls. rewrite Hcalls.
  rewrite drop_app_length. split; [reflexivity|].
  apply snd_zip. rewrite length_map. exact Hlen.
Qed.

(** If no call ended in an exception other than [APIError], the loop
    returns. *)
Lemma loop_post_returns self batches embs meta st res st' outs :
  loop_post self batches embs meta st res st' outs →
  Forall api_failure_or_success outs →
  res = Returned (embs ++ returned_vectors outs,
                  fold_left update_meta (responses outs) meta)
  ∧ length outs = length batches.
Proof.
  intros (_ & _ & _ & _ & Hres) Hall.
  destruct res as [[e m]|x].
  - destruct Hres as (Hl & _ & -> & ->). split; [reflexivity|exact Hl].
  - destruct Hres as (d & _ & Hin).
    rewrite Forall_forall in Hall. exfalso. exact (Hall _ Hin d eq_refl).
Qed.

End Loop.

(** ** [run] on a list of documents *)

(** The argument is a list all of whose elements are documents. *)
Definition is_list_of_documents (arg : PyArg) : Prop :=
  ∃ docs : list loc, arg = ArgList (map ObjDocument docs).

Lemma forallb_isinstance_map docs :
  forallb isinstance_Document (map ObjDocument docs) = true.
Proof. induction docs; simpl; auto. Qed.

Lemma document_refs_map docs : document_refs (map ObjDocument docs) = docs.
Proof.
  induction docs as [|l docs IH]; [reflexivity|].
  change (l :: document_refs (map ObjDocument docs) = l :: docs).
  f_equal. exact IH.
Qed.

Lemma forallb_isinstance_inv items :
  forallb isinstance_Document items = true → items = map ObjDocument (document_refs items).
Proof.
  induction items as [|[l|v] items IH]; simpl; intros H; [reflexivity| |discriminate].
  change (ObjDocument l :: items = ObjDocument l :: map ObjDocument (document_refs items)).
  f_equal. exact (IH H).
Qed.

Lemma is_list_of_documents_check arg :
  is_list_of_documents arg
  ↔ ∃ items, arg = ArgList items ∧ forallb isinstance_Document items = true.
Proof.
  split.
  - intros [docs ->]. eexists. split; [reflexivity|apply forallb_isinstance_map].
  - intros (items & -> & H). exists (document_refs items).
    f_equal. apply forallb_isinstance_inv, H.
Qed.

Lemma batched_positive {A} (items : list A) (n : Z) :
  (1 ≤ n)%Z → batched items n = Returned (batched_rounds (length items) (Z.to_nat n) items).
Proof. intros Hn. unfold batched. destruct (Z.ltb_spec n 1); [lia|reflexivity]. Qed.

Section Run.

Variable World : Type.
Variable embeddings_create : CreateArgs -> World -> CallOutcome * World.

Local Abbreviation embed_loop := (embed_loop World embeddings_create).
Local Abbreviation _embed_batch := (_embed_batch World embeddings_create).
Local Abbreviation run := (run World embeddings_create).

(** What [run] does on a list of documents with a positive batch size, as
    long as no call ends in an exception other than [APIError]: it returns
    the list it was given; there was one call per batch, in batch order;
    the vectors attached are those of the calls that returned, paired with
    the documents by position; and each failed call left one log record. *)
Lemma run_documents self docs st res st' :
  (1 ≤ batch_size self)%Z →
  run self (ArgList (map ObjDocument docs)) st = (res, st') →
  Forall api_failure_or_success (map snd (new_calls st st')) →
  ∃ groups outs,
    batched (_prepare_texts_to_embed self (store st) docs) (batch_size self) = Returned groups
    ∧ new_calls st st' = zip (map (create_args self) groups) outs
    ∧ length outs = length groups
    ∧ res = Returned {| out_documents := docs;
                        out_meta := fold_left update_meta (responses outs) initial_meta |}
    ∧ store st' = assign_embeddings (zip docs (returned_vectors outs)) (store st)
    ∧ log st' = log st ++ omap failure_record (zip groups outs).
Proof.
  intros Hn Hrun Hall.
  unfold run in Hrun.
  rewrite forallb_isinstance_map, document_refs_map in Hrun.
  unfold _embed_batch in Hrun.
  rewrite (batched_positive _ _ Hn) in Hrun.
  eexists. 
  destruct (embed_loop self _ [] initial_meta st) as [r st1] eqn:Hloop.
  apply embed_loop_trace in Hloop as [outs Hpost].
  exists outs.
  assert (Hcalls : calls st' = calls st1).
  { destruct r as [[e m]|x]; injection Hrun as <- <-; reflexivity. }
  destruct (loop_post_new_calls _ _ _ _ _ _ _ _ _ Hpost) as [Hnew Houts].
  assert (Hnew' : new_calls st st' = new_calls st st1)
    by (unfold new_calls; rewrite Hcalls; reflexivity).
  rewrite Hnew', Houts in Hall.
  destruct (loop_post_returns _ _ _ _ _ _ _ _ _ Hpost Hall) as [-> Hlen].
  destruct Hpost as (_ & _ & Hstore & Hlog & _).
  injection Hrun as <- <-. simpl.
  split; [apply batched_positive, Hn|].
  split; [rewrite <- Hnew; reflexivity|].
  split; [exact Hlen|]. split; [reflexivity|].
  split; [rewrite Hstore; reflexivity|exact Hlog].
Qed.

End Run.

(** ** The batches the embedder sends *)

Lemma zip_fst_take {A B} (l : list A) (k : list B) :
  map fst (zip l k) = take (length k) l.
Proof.
  revert k. induction l as [|x l IH]; intros [|y k]; simpl; try reflexivity.
  rewrite IH. reflexivity.
Qed.

Lemma request_texts_concat self (groups : list (list (string * string))) :
  concat (map arg_input (map (create_args self) groups)) = map snd (concat groups).
Proof.
  induction groups as [|g groups IH]; simpl; [reflexivity|].
  rewrite IH, map_app. reflexivity.
Qed.

Section BatchesSent.

Variable World : Type.
Variable embeddings_create : CreateArgs -> World -> CallOutcome * World.

Local Abbreviation _embed_batch := (_embed_batch World embeddings_create).

(** C4: for a positive batch size [n], the batch embedder splits the
    entries of the identifier-to-text mapping into consecutive groups, in
    the original order, each of at least one and at most [n] entries, and
    every group but the last of exactly [n]; five entries with batch size 2
    give groups of sizes 2, 2, 1.  These groups are what [_embed_batch]
    sends: in every execution the requests it makes are, in order, the
    requests of the leading groups, each with the texts of its group in
    their order; and when no call raises an exception other than
    [APIError], there is one request for every group, so that the texts
    sent, read in sequence, are the texts of the mapping, and five entries
    with batch size 2 go out as requests of 2, 2 and 1 texts. *)
Theorem C4_batches_partition self (texts_to_embed : OrderedDict string) (n : Z) st res st' :
  (1 ≤ n)%Z →
  _embed_batch self texts_to_embed n st = (res, st') →
  ∃ groups,
    batched texts_to_embed n = Returned groups
    ∧ concat groups = texts_to_embed
    ∧ Forall (λ g, 0 < length g ≤ Z.to_nat n) groups
    ∧ (∀ i g, groups !! i = Some g → S i < length groups → length g = Z.to_nat n)
    ∧ (length texts_to_embed = 5 → n = 2%Z → map length groups = [2; 2; 1])
    ∧ (∀ g, g ∈ groups → arg_input (create_args self g) = map snd g)
    ∧ (∃ sent, sent ≤ length groups
               ∧ map fst (new_calls st st') = map (create_args self) (take sent groups))
    ∧ (Forall api_failure_or_success (map snd (new_calls st st')) →
       map fst (new_calls st st') = map (create_args self) groups
       ∧ concat (map arg_input (map fst (new_calls st st'))) = map snd texts_to_embed
       ∧ (length texts_to_embed = 5 → n = 2%Z →
          map (λ c : CreateArgs * CallOutcome, length (arg_input c.1)) (new_calls st st')
          = [2; 2; 1])).
Proof.
  intros Hn Hrun.
  destruct (batched_partition self texts_to_embed n Hn)
    as (groups & Hb & Hconcat & Hsizes & Hfull & Hinput & Hfive).
  exists groups.
  split; [exact Hb|]. split; [exact Hconcat|]. split; [exact Hsizes|].
  split; [exact Hfull|]. split; [exact Hfive|]. split; [exact Hinput|].
  unfold _embed_batch in Hrun. rewrite Hb in Hrun.
  destruct (embed_loop_trace _ _ _ _ _ _ _ _ _ Hrun) as [outs Hpost].
  destruct (loop_post_new_calls _ _ _ _ _ _ _ _ _ Hpost) as [Hnew Houts].
  pose proof Hpost as (Hle & _).
  split.
  { exists (length outs). split; [exact Hle|].
    rewrite Hnew, zip_fst_take. symmetry. apply (fmap_take (create_args self)). }
  intros Hall. rewrite Houts in Hall.
  destruct (loop_post_returns _ _ _ _ _ _ _ _ _ Hpost Hall) as [_ Hlen].
  assert (Hfst : map fst (new_calls st st') = map (create_args self) groups).
  { rewrite Hnew. apply fst_zip. rewrite length_map. lia. }
  split; [exact Hfst|].
  split; [rewrite Hfst, request_texts_concat, Hconcat; reflexivity|].
  intros H5 H2.
  rewrite <- (Hfive H5 H2).
  transitivity (map (λ a, length (arg_input a)) (map fst (new_calls st st'))).
  { rewrite <- list_fmap_compose. reflexivity. }
  rewrite Hfst, <- list_fmap_compose. apply list_fmap_ext.
  intros i g Hg. simpl. apply length_map.
Qed.

End BatchesSent.

(** The documents behind [five_texts]. *)
Definition five_docs_of_texts : Store :=
  fun l => match l with
           | 0 => plain_doc "d1" "one"
           | 1 => plain_doc "d2" "two"
           | 2 => plain_doc "d3" "three"
           | 3 => plain_doc "d4" "four"
           | _ => plain_doc "d5" "five"
           end.

Definition five_texts_run : PyResult (list Embedding * Meta) * State unit :=
  _embed_batch unit echo_create default_embedder five_texts 2
    {| store := five_docs_of_texts; world := tt; log := []; calls := [] |}.

Lemma C4_batches_partition_witness :
  ∃ groups,
    batched five_texts 2 = Returned groups
    ∧ concat groups = five_texts
    ∧ map length groups = [2; 2; 1]
    ∧ map fst (calls five_texts_run.2) = map (create_args default_embedder) groups
    ∧ concat (map arg_input (map fst (calls five_texts_run.2))) = map snd five_texts
    ∧ map (λ c : CreateArgs * CallOutcome, length (arg_input c.1)) (calls five_texts_run.2)
      = [2; 2; 1].
Proof.
  destruct (C4_batches_partition unit echo_create default_embedder five_texts 2
              {| store := five_docs_of_texts; world := tt; log := []; calls := [] |}
              five_texts_run.1 five_texts_run.2)
    as (groups & Hb & Hconcat & _ & _ & Hfive & _ & _ & Hsent).
  { lia. }
  { reflexivity. }
  destruct Hsent as (Hfst & Htexts & Hsizes).
  { vm_compute. repeat constructor; intros d; discriminate. }
  exists groups.
  split; [exact Hb|]. split; [exact Hconcat|].
  split; [apply Hfive; reflexivity|].
  split; [exact Hfst|]. split; [exact Htexts|].
  apply Hsizes; reflexivity.
Defined.

(** ** Failed batches *)

Definition two_docs : Store :=
  fun l => match l with
           | 0 => plain_doc "a" "first text"
           | _ => plain_doc "b" "second text"
           end.

Definition one_vector_response : CreateEmbeddingResponse :=
  {| resp_data := [[PrimFloat.one]]; resp_model := "text-embedding-ada-002";
     resp_usage := {| prompt_tokens := 3; total_tokens := 3 |} |}.

(** The first call raises [APIError], the second returns one vector. *)
Definition first_call_fails : Script :=
  [CallRaisesAPIError "boom"; CallReturns one_vector_response].

Section SkipAndLog.

Variable World : Type.
Variable embeddings_create : CreateArgs -> World -> CallOutcome * World.

Local Abbreviation run := (run World embeddings_create).

Lemma run_batch_size_below_one self docs st :
  (batch_size self < 1)%Z →
  run self (ArgList (map ObjDocument docs)) st
  = (Raised (ValueError "n must be at least one"), st).
Proof.
  intros Hn. unfold run.
  rewrite forallb_isinstance_map.
  unfold _embed_batch, batched.
  destruct (Z.ltb_spec (batch_size self) 1); [reflexivity|lia].
Qed.

Lemma new_calls_same (st : State World) : new_calls st st = [].
Proof. unfold new_calls. apply drop_all. Qed.

(** C3: take any execution of [run] on a list of documents in which no
    remote call ends in an exception other than [APIError], and any call of
    it, the [i]-th, that raised [APIError].  Then [run] returns; every
    batch was sent exactly once, in order (so the failed batch was not
    retried and the batches after it were processed); the vectors attached
    are exactly those of the calls that returned, none for the failed
    batch; and the log holds an ERROR record with the identifiers of the
    [i]-th batch and the error, one record per failed batch in all. *)
Theorem C3_api_error_skips_batch self docs st res st' :
  run self (ArgList (map ObjDocument docs)) st = (res, st') →
  Forall api_failure_or_success (map snd (new_calls st st')) →
  ∀ i e, map snd (new_calls st st') !! i = Some (CallRaisesAPIError e) →
  ∃ groups outs batch,
    batched (_prepare_texts_to_embed self (store st) docs) (batch_size self) = Returned groups
    ∧ map snd (new_calls st st') = outs
    ∧ map fst (new_calls st st') = map (create_args self) groups
    ∧ groups !! i = Some batch
    ∧ res = Returned {| out_documents := docs;
                        out_meta := fold_left update_meta (responses outs) initial_meta |}
    ∧ store st' = assign_embeddings (zip docs (returned_vectors outs)) (store st)
    ∧ {| log_level := ERROR;
         log_message := ("Failed embedding of documents " ++ str_join ", " (map fst batch)
                         ++ " caused by " ++ e)%string |} ∈ log st'
    ∧ log st' = log st ++ omap failure_record (zip groups outs).
Proof.
  intros Hrun Hall i e Hi.
  destruct (Z.ltb_spec (batch_size self) 1) as [Hlt|Hge].
  { rewrite (run_batch_size_below_one _ _ _ Hlt) in Hrun. injection Hrun as <- <-.
    rewrite new_calls_same in Hi. discriminate. }
  destruct (run_documents _ _ _ _ _ _ _ Hge Hrun Hall)
    as (groups & outs & Hb & Hnew & Hlen & Hres & Hstore & Hlog).
  assert (Houts : map snd (new_calls st st') = outs).
  { rewrite Hnew. apply snd_zip. rewrite length_map. lia. }
  rewrite Houts in Hi.
  destruct (lookup_lt_is_Some_2 groups i) as [batch Hbatch].
  { rewrite <- Hlen. eapply lookup_lt_Some, Hi. }
  exists groups, outs, batch.
  split; [exact Hb|]. split; [exact Houts|].
  split; [rewrite Hnew; apply fst_zip; rewrite length_map; lia|].
  split; [exact Hbatch|]. split; [exact Hres|]. split; [exact Hstore|].
  split; [|exact Hlog].
  rewrite Hlog. apply elem_of_app. right.
  apply list_elem_of_omap. exists (batch, CallRaisesAPIError e).
  split; [|reflexivity].
  apply list_elem_of_lookup. exists i.
  apply lookup_zip_with_Some. exists batch, (CallRaisesAPIError e). auto.
Qed.

End SkipAndLog.

Definition first_call_fails_run : PyResult RunOutput * State Script :=
  run Script scripted_create (with_batch_size default_embedder 1)
    (ArgList (map ObjDocument [0; 1])) (scripted_state two_docs first_call_fails).

Lemma C3_api_error_skips_batch_witness :
  ∃ groups outs batch,
    batched (_prepare_texts_to_embed (with_batch_size default_embedder 1) two_docs [0; 1]) 1
    = Returned groups
    ∧ map snd (new_calls (scripted_state two_docs first_call_fails) first_call_fails_run.2)
      = outs
    ∧ map fst (new_calls (scripted_state two_docs first_call_fails) first_call_fails_run.2)
      = map (create_args (with_batch_size default_embedder 1)) groups
    ∧ groups !! 0 = Some batch
    ∧ first_call_fails_run.1
      = Returned {| out_documents := [0; 1];
                    out_meta := fold_left update_meta (responses outs) initial_meta |}
    ∧ store first_call_fails_run.2
      = assign_embeddings (zip [0; 1] (returned_vectors outs)) two_docs
    ∧ {| log_level := ERROR;
         log_message := ("Failed embedding of documents " ++ str_join ", " (map fst batch)
                         ++ " caused by " ++ "boom")%string |} ∈ log first_call_fails_run.2
    ∧ log first_call_fails_run.2 = [] ++ omap failure_record (zip groups outs).
Proof.
  apply (C3_api_error_skips_batch Script scripted_create
           (with_batch_size default_embedder 1) [0; 1]
           (scripted_state two_docs first_call_fails)
           first_call_fails_run.1 first_call_fails_run.2).
  - reflexivity.
  - vm_compute. repeat constructor; intros d; discriminate.
  - reflexivity.
Defined.

(** C1: the execution in which the batch of document "a" fails and the
    batch of document "b" succeeds (batch size 1).  The one vector that
    came back, computed from the text of "b", is attached to "a", the
    member of the failed batch, and "b" is left without an embedding. *)
Theorem C1_failed_batch_member_gets_vector :
  first_call_fails_run.1
  = Returned {| out_documents := [0; 1];
                out_meta := {| meta_model := "text-embedding-ada-002";
                               meta_usage := {| prompt_tokens := 3; total_tokens := 3 |} |} |}
  ∧ calls first_call_fails_run.2
    = [({| arg_model := "text-embedding-ada-002"; arg_input := ["first text"];
           arg_dimensions := None |}, CallRaisesAPIError "boom");
       ({| arg_model := "text-embedding-ada-002"; arg_input := ["second text"];
           arg_dimensions := None |}, CallReturns one_vector_response)]
  ∧ doc_id (two_docs 0) = "a"
  ∧ doc_embedding (store first_call_fails_run.2 0) = Some [PrimFloat.one]
  ∧ doc_id (two_docs 1) = "b"
  ∧ doc_embedding (store first_call_fails_run.2 1) = None
  ∧ log first_call_fails_run.2
    = [{| log_level := ERROR;
          log_message := "Failed embedding of documents a caused by boom" |}].
Proof. vm_compute. repeat split. Qed.

(** ** Distinct identifiers *)

Lemma dict_setitem_fresh {V} (d : OrderedDict V) k v :
  k ∉ map fst d → dict_setitem d k v = d ++ [(k, v)].
Proof.
  induction d as [|[k' v'] d IH]; simpl; intros Hk; [reflexivity|].
  apply not_elem_of_cons in Hk as [Hne Hk].
  destruct (String.eqb_spec k' k); [congruence|].
  rewrite IH by exact Hk. reflexivity.
Qed.

Lemma dict_setitem_keys {V} (d : OrderedDict V) k v :
  k ∈ map fst d → map fst (dict_setitem d k v) = map fst d.
Proof.
  induction d as [|[k' v'] d IH]; simpl; intros Hk; [inversion Hk|].
  destruct (String.eqb_spec k' k); [reflexivity|].
  apply elem_of_cons in Hk as [Hk|Hk]; [congruence|].
  simpl. rewrite IH by exact Hk. reflexivity.
Qed.

Lemma dict_setitem_length {V} (d : OrderedDict V) k v :
  length (dict_setitem d k v) = if decide (k ∈ map fst d) then length d else S (length d).
Proof.
  case_decide as Hk.
  - rewrite <- (length_map fst), dict_setitem_keys, length_map by exact Hk. reflexivity.
  - rewrite dict_setitem_fresh by exact Hk. rewrite length_app. simpl. lia.
Qed.

Definition entry_of (self : Embedder) (s : Store) (l : loc) : string * string :=
  (doc_id (s l), text_to_embed self (s l)).

Definition ids_of (s : Store) (docs : list loc) : list string :=
  map (λ l, doc_id (s l)) docs.

(** With distinct identifiers the mapping has one entry per document, in
    document order. *)
Lemma prepare_loop_distinct self s docs : ∀ acc,
  NoDup (map fst acc ++ ids_of s docs) →
  prepare_loop self s docs acc = acc ++ map (entry_of self s) docs.
Proof.
  induction docs as [|l docs IH]; intros acc Hnd; simpl.
  - rewrite app_nil_r. reflexivity.
  - simpl in Hnd. apply NoDup_app in Hnd as (Hacc & Hdisj & Hdocs).
    apply NoDup_cons in Hdocs as [Hl Hdocs].
    rewrite dict_setitem_fresh.
    2:{ intros Hin. apply (Hdisj _ Hin). left. }
    rewrite IH.
    + rewrite <- app_assoc. reflexivity.
    + rewrite map_app. simpl. apply NoDup_app. split; [|split; [|exact Hdocs]].
      * apply NoDup_app. split; [exact Hacc|]. split; [|apply NoDup_singleton].
        intros k Hk Hk'. apply list_elem_of_singleton in Hk' as ->.
        apply (Hdisj _ Hk). left.
      * intros k Hk Hk'. apply elem_of_app in Hk as [Hk|Hk].
        -- apply (Hdisj _ Hk). right. exact Hk'.
        -- apply list_elem_of_singleton in Hk as ->. exact (Hl Hk').
Qed.

Lemma prepare_distinct self s docs :
  NoDup (ids_of s docs) →
  _prepare_texts_to_embed self s docs = map (entry_of self s) docs.
Proof. intros Hnd. unfold _prepare_texts_to_embed. rewrite prepare_loop_distinct; auto. Qed.

(** In general the mapping never has more entries than there are
    documents, its keys are distinct, and they are identifiers of the
    documents. *)
Lemma prepare_loop_length self s docs : ∀ acc,
  length (prepare_loop self s docs acc) ≤ length acc + length docs.
Proof.
  induction docs as [|l docs IH]; intros acc; simpl; [lia|].
  etrans; [apply IH|]. rewrite dict_setitem_length. case_decide; lia.
Qed.

Lemma dict_setitem_NoDup {V} (d : OrderedDict V) k v :
  NoDup (map fst d) → NoDup (map fst (dict_setitem d k v)).
Proof.
  intros Hnd. destruct (decide (k ∈ map fst d)) as [Hk|Hk].
  - rewrite dict_setitem_keys by exact Hk. exact Hnd.
  - rewrite dict_setitem_fresh by exact Hk. rewrite map_app. simpl.
    apply NoDup_app. split; [exact Hnd|]. split; [|apply NoDup_singleton].
    intros k' Hk' Hin. apply list_elem_of_singleton in Hin as ->. exact (Hk Hk').
Qed.

Lemma dict_setitem_keys_elem {V} (d : OrderedDict V) k v k' :
  k' ∈ map fst (dict_setitem d k v) ↔ k' = k ∨ k' ∈ map fst d.
Proof.
  destruct (decide (k ∈ map fst d)) as [Hk|Hk].
  - rewrite dict_setitem_keys by exact Hk. split; [auto|]. intros [->|H]; auto.
  - rewrite dict_setitem_fresh by exact Hk. rewrite map_app, elem_of_app. simpl.
    rewrite list_elem_of_singleton. tauto.
Qed.

Lemma prepare_loop_keys self s docs : ∀ acc,
  NoDup (map fst acc) →
  NoDup (map fst (prepare_loop self s docs acc))
  ∧ ∀ k, k ∈ map fst (prepare_loop self s docs acc) ↔ k ∈ map fst acc ∨ k ∈ ids_of s docs.
Proof.
  induction docs as [|l docs IH]; intros acc Hnd; simpl.
  - split; [exact Hnd|]. intros k. split; [auto|]. intros [H|H]; [exact H|inversion H].
  - destruct (IH (dict_setitem acc (doc_id (s l)) (text_to_embed self (s l))))
      as [Hnd' Hkeys]; [apply dict_setitem_NoDup, Hnd|].
    split; [exact Hnd'|]. intros k. rewrite Hkeys, dict_setitem_keys_elem, elem_of_cons.
    tauto.
Qed.

(** Two documents with one identifier: strictly fewer texts than documents. *)
Lemma prepare_duplicate_shorter self s docs :
  ¬ NoDup (ids_of s docs) →
  length (_prepare_texts_to_embed self s docs) < length docs.
Proof.
  intros Hdup. unfold _prepare_texts_to_embed.
  destruct (prepare_loop_keys self s docs []) as [Hnd Hkeys]; [constructor|].
  pose proof (prepare_loop_length self s docs []) as Hle. simpl in Hle.
  destruct (decide (length (prepare_loop self s docs []) = length docs)) as [Heq|]; [|lia].
  exfalso. apply Hdup.
  assert (Hsub : map fst (prepare_loop self s docs []) ⊆+ ids_of s docs).
  { apply NoDup_submseteq; [exact Hnd|]. intros k Hk. apply Hkeys in Hk as [Hk|Hk]; [inversion Hk|exact Hk]. }
  apply submseteq_length_Permutation in Hsub.
  - rewrite <- Hsub. exact Hnd.
  - unfold ids_of. rewrite !length_map. lia.
Qed.

(** The text stored under an identifier is that of the last document that
    carries it. *)
Lemma prepare_loop_get_other self s docs k : ∀ acc,
  k ∉ ids_of s docs → dict_get (prepare_loop self s docs acc) k = dict_get acc k.
Proof.
  induction docs as [|l docs IH]; intros acc Hk; simpl; [reflexivity|].
  simpl in Hk. apply not_elem_of_cons in Hk as [Hne Hk].
  rewrite IH by exact Hk. apply dict_get_setitem_ne. congruence.
Qed.

Lemma prepare_last_wins self s before l after :
  doc_id (s l) ∉ ids_of s after →
  dict_get (_prepare_texts_to_embed self s (before ++ l :: after)) (doc_id (s l))
  = Some (text_to_embed self (s l)).
Proof.
  intros Hlast. unfold _prepare_texts_to_embed.
  rewrite prepare_loop_app. simpl.
  rewrite prepare_loop_get_other by exact Hlast.
  apply dict_get_setitem_eq.
Qed.

(** ** Attaching the vectors *)

Lemma store_assign_eq s l emb : store_assign s l emb l = set_embedding (s l) emb.
Proof. unfold store_assign. rewrite Nat.eqb_refl. reflexivity. Qed.

Lemma store_assign_ne s l l' emb : l' ≠ l → store_assign s l emb l' = s l'.
Proof. intros Hne. unfold store_assign. destruct (Nat.eqb_spec l' l); congruence. Qed.

(** A document that is not among the paired ones is not written. *)
Lemma assign_embeddings_other pairs : ∀ s l,
  l ∉ map fst pairs → assign_embeddings pairs s l = s l.
Proof.
  induction pairs as [|[l0 emb] pairs IH]; intros s l Hl; simpl; [reflexivity|].
  simpl in Hl. apply not_elem_of_cons in Hl as [Hne Hl].
  rewrite IH by exact Hl. apply store_assign_ne, Hne.
Qed.

(** With no document listed twice, the document at position [i] gets the
    vector at position [i]. *)
Lemma assign_embeddings_lookup docs : ∀ vectors s i l v,
  NoDup docs → docs !! i = Some l → vectors !! i = Some v →
  assign_embeddings (zip docs vectors) s l = set_embedding (s l) v.
Proof.
  induction docs as [|l0 docs IH]; intros vectors s i l v Hnd Hl Hv; [discriminate|].
  destruct vectors as [|v0 vectors]; [discriminate|].
  apply NoDup_cons in Hnd as [Hl0 Hnd]. simpl.
  destruct i as [|i]; simpl in Hl, Hv.
  - injection Hl as ->. injection Hv as ->.
    rewrite assign_embeddings_other; [apply store_assign_eq|].
    intros Hin. apply Hl0.
    apply list_elem_of_fmap in Hin as ([l' v'] & -> & Hin).
    apply elem_of_zip_l in Hin. exact Hin.
  - assert (Hne : l ≠ l0).
    { intros ->. apply Hl0. eapply list_elem_of_lookup_2, Hl. }
    rewrite (IH _ _ _ _ _ Hnd Hl Hv).
    rewrite store_assign_ne by exact Hne. reflexivity.
Qed.

(** Only the first [length vectors] documents are paired. *)
Lemma zip_docs_fst (docs : list loc) (vectors : list Embedding) :
  map fst (zip docs vectors) = take (length vectors) docs.
Proof.
  revert vectors. induction docs as [|l docs IH]; intros [|v vectors]; simpl; try reflexivity.
  rewrite IH. reflexivity.
Qed.

(** ** Calls that succeed *)

(** The call returned, with one vector per text sent. *)
Definition call_succeeds (c : CreateArgs * CallOutcome) : Prop :=
  ∃ r, c.2 = CallReturns r ∧ length (resp_data r) = length (arg_input c.1).

(** The response names the model (a non-empty string). *)
Definition names_model (c : CreateArgs * CallOutcome) : Prop :=
  ∀ r, c.2 = CallReturns r → resp_model r ≠ ""%string.

Definition sum_prompt_tokens (rs : list CreateEmbeddingResponse) : Z :=
  foldr Z.add 0%Z (map (λ r, prompt_tokens (resp_usage r)) rs).

Definition sum_total_tokens (rs : list CreateEmbeddingResponse) : Z :=
  foldr Z.add 0%Z (map (λ r, total_tokens (resp_usage r)) rs).

Lemma call_succeeds_not_other cs :
  Forall call_succeeds cs → Forall api_failure_or_success (map snd cs).
Proof.
  intros H. apply Forall_fmap. eapply Forall_impl; [exact H|].
  intros [a o] (r & Ho & _) d. simpl in *. congruence.
Qed.

(** When every call returns one vector per text, the vectors are as many as
    the entries, and the texts sent are the texts of the entries in order. *)
Lemma succeeded_calls_vectors self groups : ∀ outs,
  length outs = length groups →
  Forall call_succeeds (zip (map (create_args self) groups) outs) →
  length (returned_vectors outs) = length (concat groups)
  ∧ concat (map (λ c, arg_input c.1) (zip (map (create_args self) groups) outs))
    = map snd (concat groups).
Proof.
  induction groups as [|g groups IH]; intros [|o outs] Hlen Hall; simpl in *; try lia.
  - split; reflexivity.
  - apply Forall_cons in Hall as [(r & Ho & Hr) Hall]. simpl in *. subst o.
    destruct (IH outs) as [IH1 IH2]; [lia|exact Hall|].
    unfold returned_vectors in *. simpl.
    rewrite !length_app, IH1, Hr, length_map, map_app, IH2. split; reflexivity.
Qed.

(** Usage bookkeeping: once [meta] names a model, every later response
    adds its counters. *)
Lemma fold_update_meta_adds rs : ∀ meta,
  meta_model meta ≠ ""%string →
  prompt_tokens (meta_usage (fold_left update_meta rs meta))
  = (prompt_tokens (meta_usage meta) + sum_prompt_tokens rs)%Z
  ∧ total_tokens (meta_usage (fold_left update_meta rs meta))
    = (total_tokens (meta_usage meta) + sum_total_tokens rs)%Z.
Proof.
  induction rs as [|r rs IH]; intros meta Hm; simpl.
  - unfold sum_prompt_tokens, sum_total_tokens. simpl. lia.
  - assert (Hupd : update_meta meta r
                   = {| meta_model := meta_model meta;
                        meta_usage :=
                          {| prompt_tokens := prompt_tokens (meta_usage meta)
                                              + prompt_tokens (resp_usage r);
                             total_tokens := total_tokens (meta_usage meta)
                                             + total_tokens (resp_usage r) |} |}%Z).
    { unfold update_meta. destruct (String.eqb_spec (meta_model meta) ""); congruence. }
    rewrite Hupd.
    match goal with
    | |- context [fold_left update_meta rs ?m] => destruct (IH m Hm) as [-> ->]
    end.
    unfold sum_prompt_tokens, sum_total_tokens. simpl. lia.
Qed.

Lemma fold_update_meta_sums rs :
  Forall (λ r, resp_model r ≠ ""%string) rs →
  prompt_tokens (meta_usage (fold_left update_meta rs initial_meta)) = sum_prompt_tokens rs
  ∧ total_tokens (meta_usage (fold_left update_meta rs initial_meta)) = sum_total_tokens rs.
Proof.
  destruct rs as [|r rs]; intros Hall; [split; reflexivity|].
  apply Forall_cons in Hall as [Hr Hall]. simpl.
  change (update_meta initial_meta r)
    with {| meta_model := resp_model r; meta_usage := resp_usage r |}.
  destruct (fold_update_meta_adds rs {| meta_model := resp_model r; meta_usage := resp_usage r |} Hr)
    as [-> ->].
  split; reflexivity.
Qed.

Lemma names_model_responses cs :
  Forall names_model cs → Forall (λ r, resp_model r ≠ ""%string) (responses (map snd cs)).
Proof.
  induction cs as [|[a o] cs IH]; intros Hall; [constructor|].
  apply Forall_cons in Hall as [Ho Hall]. unfold responses in *. simpl.
  destruct o as [r| |]; simpl; [|apply IH, Hall..].
  constructor; [apply Ho; reflexivity|apply IH, Hall].
Qed.

(** ** Every batch succeeds *)

Section AllSucceed.

Variable World : Type.
Variable embeddings_create : CreateArgs -> World -> CallOutcome * World.

Local Abbreviation run := (run World embeddings_create).

(** C2, for distinct identifiers: for a list of documents with pairwise distinct
    identifiers and a positive batch size, if every remote call of the
    execution returns one vector per text sent and names its model, then
    [run] returns the list it was given (same documents, same order); the
    vectors returned are as many as the documents; the texts were sent in
    document order, so the vector at position [i] answers the text of the
    document at position [i], and that vector is what the document's
    embedding field holds afterwards (its other fields, and all other
    documents, are untouched); and the usage counters of the returned
    metadata are the sums of the counters of the responses. *)
Theorem C2_distinct_ids_all_batches_succeed self docs st res st' :
  NoDup (ids_of (store st) docs) →
  (1 ≤ batch_size self)%Z →
  run self (ArgList (map ObjDocument docs)) st = (res, st') →
  Forall call_succeeds (new_calls st st') →
  Forall names_model (new_calls st st') →
  let rs := responses (map snd (new_calls st st')) in
  let vectors := concat (map resp_data rs) in
  ∃ meta,
    res = Returned {| out_documents := docs; out_meta := meta |}
    ∧ length vectors = length docs
    ∧ concat (map (λ c, arg_input c.1) (new_calls st st'))
      = map (λ l, text_to_embed self (store st l)) docs
    ∧ (∀ i l, docs !! i = Some l →
         ∃ v, vectors !! i = Some v ∧ store st' l = set_embedding (store st l) v)
    ∧ (∀ l, l ∉ docs → store st' l = store st l)
    ∧ prompt_tokens (meta_usage meta) = sum_prompt_tokens rs
    ∧ total_tokens (meta_usage meta) = sum_total_tokens rs.
Proof.
  intros Hids Hn Hrun Hok Hnames rs vectors.
  destruct (run_documents _ _ _ _ _ _ _ Hn Hrun (call_succeeds_not_other _ Hok))
    as (groups & outs & Hb & Hnew & Hlen & Hres & Hstore & Hlog).
  assert (Houts : map snd (new_calls st st') = outs).
  { rewrite Hnew. apply snd_zip. rewrite length_map. lia. }
  rewrite (batched_positive _ _ Hn) in Hb. injection Hb as Hgroups.
  assert (Hconcat : concat groups = map (entry_of self (store st)) docs).
  { rewrite <- Hgroups, batched_rounds_concat by lia. apply prepare_distinct, Hids. }
  pose proof Hok as Hok'. rewrite Hnew in Hok'.
  destruct (succeeded_calls_vectors self groups outs Hlen Hok') as [Hvlen Htexts].
  assert (Hvectors : vectors = returned_vectors outs).
  { unfold vectors, rs. rewrite Houts. reflexivity. }
  assert (Hvl : length vectors = length docs).
  { rewrite Hvectors, Hvlen, Hconcat, length_map. reflexivity. }
  assert (Hnd : NoDup docs) by (eapply NoDup_fmap_1, Hids).
  destruct (fold_update_meta_sums rs) as [Hp Ht].
  { apply names_model_responses, Hnames. }
  eexists. split; [exact Hres|]. split; [exact Hvl|].
  split.
  { rewrite Hnew, Htexts, Hconcat, <- list_fmap_compose. reflexivity. }
  split.
  { intros i l Hl.
    destruct (lookup_lt_is_Some_2 vectors i) as [v Hv].
    { rewrite Hvl. eapply lookup_lt_Some, Hl. }
    exists v. split; [exact Hv|]. rewrite Hstore, <- Hvectors.
    eapply assign_embeddings_lookup; eauto. }
  split.
  { intros l Hl. rewrite Hstore. apply assign_embeddings_other.
    rewrite zip_docs_fst. intros Hin. apply Hl.
    exact (subseteq_take _ _ _ Hin). }
  unfold rs in Hp, Ht. rewrite Houts in Hp, Ht.
  unfold rs. rewrite Houts. split; [exact Hp|exact Ht].
Qed.

End AllSucceed.

Definition five_docs : Store :=
  fun l => match l with
           | 0 => pizza_doc
           | 1 => plain_doc "doc-2" "hi"
           | 2 => plain_doc "doc-3" "x"
           | 3 => plain_doc "doc-4" "four"
           | _ => plain_doc "doc-5" "fives"
           end.

Definition echo_state (s : Store) : State unit :=
  {| store := s; world := tt; log := []; calls := [] |}.

Definition five_docs_run : PyResult RunOutput * State unit :=
  run unit echo_create (with_batch_size default_embedder 2)
    (ArgList (map ObjDocument [0; 1; 2; 3; 4])) (echo_state five_docs).

Lemma C2_distinct_ids_all_batches_succeed_witness :
  ∃ meta,
    five_docs_run.1 = Returned {| out_documents := [0; 1; 2; 3; 4]; out_meta := meta |}
    ∧ length (concat (map resp_data
                (responses (map snd (new_calls (echo_state five_docs) five_docs_run.2)))))
      = length [0; 1; 2; 3; 4]
    ∧ concat (map (λ c, arg_input c.1) (new_calls (echo_state five_docs) five_docs_run.2))
      = map (λ l, text_to_embed (with_batch_size default_embedder 2)
                    (store (echo_state five_docs) l)) [0; 1; 2; 3; 4]
    ∧ (∀ i l, [0; 1; 2; 3; 4] !! i = Some l →
         ∃ v, concat (map resp_data
                (responses (map snd (new_calls (echo_state five_docs) five_docs_run.2))))
              !! i = Some v
              ∧ store five_docs_run.2 l = set_embedding (store (echo_state five_docs) l) v)
    ∧ (∀ l, l ∉ [0; 1; 2; 3; 4] → store five_docs_run.2 l = store (echo_state five_docs) l)
    ∧ prompt_tokens (meta_usage meta)
      = sum_prompt_tokens
          (responses (map snd (new_calls (echo_state five_docs) five_docs_run.2)))
    ∧ total_tokens (meta_usage meta)
      = sum_total_tokens
          (responses (map snd (new_calls (echo_state five_docs) five_docs_run.2))).
Proof.
  apply (C2_distinct_ids_all_batches_succeed unit echo_create
           (with_batch_size default_embedder 2) [0; 1; 2; 3; 4]
           (echo_state five_docs) five_docs_run.1 five_docs_run.2).
  - apply (bool_decide_unpack _). vm_compute. reflexivity.
  - simpl. lia.
  - reflexivity.
  - vm_compute. repeat constructor; eexists; split; reflexivity.
  - vm_compute. repeat constructor; intros r [= <-]; discriminate.
Defined.

(** Two documents that carry the same identifier. *)
Definition twin_docs : Store :=
  fun l => match l with
           | 0 => plain_doc "a" "x"
           | _ => plain_doc "a" "yy"
           end.

Definition twin_docs_run : PyResult RunOutput * State unit :=
  run unit echo_create default_embedder
    (ArgList (map ObjDocument [0; 1])) (echo_state twin_docs).

(** Two successful batches whose responses carry an empty model name. *)
Definition unnamed_response (tokens : Z) : CreateEmbeddingResponse :=
  {| resp_data := [[PrimFloat.one]]; resp_model := "";
     resp_usage := {| prompt_tokens := tokens; total_tokens := tokens |} |}.

Definition unnamed_run : PyResult RunOutput * State Script :=
  run Script scripted_create (with_batch_size default_embedder 1)
    (ArgList (map ObjDocument [0; 1]))
    (scripted_state two_docs [CallReturns (unnamed_response 3);
                              CallReturns (unnamed_response 4)]).

(** Where the statement for every list of documents fails.  With a
    repeated identifier the one call succeeds and [run] returns, but one
    vector comes back for two documents and the second document is left
    without an embedding.  With responses that carry an empty model name,
    the second response replaces the usage of the first: 4 tokens are
    reported where 3 + 4 were used.  With a batch size of 0, [run] raises
    even on the empty list, where no batch fails. *)
Lemma C2_fails_without_preconditions :
  (Forall call_succeeds (new_calls (echo_state twin_docs) twin_docs_run.2)
   ∧ (∃ meta, twin_docs_run.1 = Returned {| out_documents := [0; 1]; out_meta := meta |})
   ∧ length (returned_vectors (map snd (new_calls (echo_state twin_docs) twin_docs_run.2))) = 1
   ∧ length [0; 1] = 2
   ∧ doc_embedding (store twin_docs_run.2 1) = None)
  ∧ (Forall call_succeeds (calls unnamed_run.2)
     ∧ unnamed_run.1
       = Returned {| out_documents := [0; 1];
                     out_meta := {| meta_model := "";
                                    meta_usage := {| prompt_tokens := 4;
                                                     total_tokens := 4 |} |} |}
     ∧ sum_prompt_tokens (responses (map snd (calls unnamed_run.2))) = 7%Z)
  ∧ run unit echo_create (with_batch_size default_embedder 0) (ArgList [])
      (echo_state two_docs)
    = (Raised (ValueError "n must be at least one"), echo_state two_docs).
Proof.
  split; [|split].
  - split; [vm_compute; repeat constructor; eexists; split; reflexivity|].
    split; [eexists; vm_compute; reflexivity|].
    vm_compute. repeat split.
  - split; [vm_compute; repeat constructor; eexists; split; reflexivity|].
    vm_compute. split; reflexivity.
  - reflexivity.
Qed.

(** ** Repeated identifiers *)

(** Three documents, the first and the last with the same identifier. *)
Definition three_docs : Store :=
  fun l => match l with
           | 0 => plain_doc "a" "x"
           | 1 => plain_doc "b" "yy"
           | _ => plain_doc "a" "zzz"
           end.

Definition three_docs_run : PyResult RunOutput * State unit :=
  run unit echo_create default_embedder
    (ArgList (map ObjDocument [0; 1; 2])) (echo_state three_docs).

(** C10: the prepared texts are keyed by identifier.  When two documents
    of the input carry the same identifier, the mapping has strictly fewer
    entries than there are documents, and under each identifier it keeps
    the text of the last document that carries it.  In a run whose calls
    all succeed, the vectors are then as many as the entries, fewer than
    the documents; they are attached by position, so only the first
    documents are written and a document that is listed only further on
    keeps its embedding field as it was.  In the example of three documents
    "a", "b", "a", the first document receives the vector computed from the
    text of the third, and the third receives none. *)
Theorem C10_repeated_identifier (World : Type)
    (embeddings_create : CreateArgs → World → CallOutcome * World)
    self docs (st : State World) res st' :
  ¬ NoDup (ids_of (store st) docs) →
  length (_prepare_texts_to_embed self (store st) docs) < length docs
  ∧ (∀ before l after,
       docs = before ++ l :: after →
       doc_id (store st l) ∉ ids_of (store st) after →
       dict_get (_prepare_texts_to_embed self (store st) docs) (doc_id (store st l))
       = Some (text_to_embed self (store st l)))
  ∧ ((1 ≤ batch_size self)%Z →
     run World embeddings_create self (ArgList (map ObjDocument docs)) st = (res, st') →
     Forall call_succeeds (new_calls st st') →
     let vectors := returned_vectors (map snd (new_calls st st')) in
     length vectors = length (_prepare_texts_to_embed self (store st) docs)
     ∧ length vectors < length docs
     ∧ concat (map (λ c, arg_input c.1) (new_calls st st'))
       = map snd (_prepare_texts_to_embed self (store st) docs)
     ∧ store st' = assign_embeddings (zip docs vectors) (store st)
     ∧ ∀ l, l ∉ take (length vectors) docs → store st' l = store st l)
  ∧ (text_to_embed default_embedder (three_docs 0)
     ≠ text_to_embed default_embedder (three_docs 2)
     ∧ doc_embedding (store three_docs_run.2 0)
       = Some (length_vector (text_to_embed default_embedder (three_docs 2)))
     ∧ doc_embedding (store three_docs_run.2 2) = None).
Proof.
  intros Hdup.
  pose proof (prepare_duplicate_shorter self (store st) docs Hdup) as Hshort.
  split; [exact Hshort|].
  split; [intros before l after ->; apply prepare_last_wins|].
  split; [|vm_compute; repeat split; discriminate].
  intros Hn Hrun Hok vectors.
  destruct (run_documents _ _ _ _ _ _ _ Hn Hrun (call_succeeds_not_other _ Hok))
    as (groups & outs & Hb & Hnew & Hlen & Hres & Hstore & Hlog).
  assert (Houts : map snd (new_calls st st') = outs).
  { rewrite Hnew. apply snd_zip. rewrite length_map. lia. }
  rewrite (batched_positive _ _ Hn) in Hb. injection Hb as Hgroups.
  assert (Hconcat : concat groups = _prepare_texts_to_embed self (store st) docs).
  { rewrite <- Hgroups. apply batched_rounds_concat; lia. }
  pose proof Hok as Hok'. rewrite Hnew in Hok'.
  destruct (succeeded_calls_vectors self groups outs Hlen Hok') as [Hvlen Htexts].
  assert (Hvectors : vectors = returned_vectors outs) by (unfold vectors; rewrite Houts; reflexivity).
  rewrite Hconcat in Hvlen, Htexts.
  split; [rewrite Hvectors; exact Hvlen|].
  split; [rewrite Hvectors, Hvlen; exact Hshort|].
  split; [rewrite Hnew; exact Htexts|].
  split; [rewrite Hvectors; exact Hstore|].
  intros l Hl. rewrite Hstore, <- Hvectors. apply assign_embeddings_other.
  rewrite zip_docs_fst. exact Hl.
Qed.

Lemma C10_repeated_identifier_witness :
  length (_prepare_texts_to_embed default_embedder three_docs [0; 1; 2]) < length [0; 1; 2]
  ∧ dict_get (_prepare_texts_to_embed default_embedder three_docs [0; 1; 2])
      (doc_id (three_docs 2))
    = Some (text_to_embed default_embedder (three_docs 2))
  ∧ (let vectors :=
       returned_vectors (map snd (new_calls (echo_state three_docs) three_docs_run.2)) in
     length vectors = length (_prepare_texts_to_embed default_embedder three_docs [0; 1; 2])
     ∧ length vectors < length [0; 1; 2]
     ∧ concat (map (λ c, arg_input c.1) (new_calls (echo_state three_docs) three_docs_run.2))
       = map snd (_prepare_texts_to_embed default_embedder three_docs [0; 1; 2])
     ∧ store three_docs_run.2 = assign_embeddings (zip [0; 1; 2] vectors) three_docs
     ∧ ∀ l, l ∉ take (length vectors) [0; 1; 2] → store three_docs_run.2 l = three_docs l)
  ∧ (text_to_embed default_embedder (three_docs 0)
     ≠ text_to_embed default_embedder (three_docs 2)
     ∧ doc_embedding (store three_docs_run.2 0)
       = Some (length_vector (text_to_embed default_embedder (three_docs 2)))
     ∧ doc_embedding (store three_docs_run.2 2) = None).
Proof.
  destruct (C10_repeated_identifier unit echo_create default_embedder [0; 1; 2]
              (echo_state three_docs) three_docs_run.1 three_docs_run.2)
    as (Hshort & Hlast & Hrun & Hexample).
  { apply (bool_decide_unpack _). vm_compute. reflexivity. }
  split; [exact Hshort|].
  split.
  { apply (Hlast [0; 1] 2 []); [reflexivity|]. apply not_elem_of_nil. }
  split; [|exact Hexample].
  apply Hrun.
  - simpl. lia.
  - reflexivity.
  - vm_compute. repeat constructor; eexists; split; reflexivity.
Defined.

(** ** The type contract of [run] *)

Section TypeContract.

Variable World : Type.
Variable embeddings_create : CreateArgs -> World -> CallOutcome * World.

Local Abbreviation run := (run World embeddings_create).

Lemma embed_batch_raises self texts n st x st' :
  _embed_batch World embeddings_create self texts n st = (Raised x, st') →
  x = ValueError "n must be at least one" ∨ ∃ d, x = ExternalError d.
Proof.
  unfold _embed_batch, batched. destruct (n <? 1)%Z.
  - intros [= <- _]. left. reflexivity.
  - intros Hloop. apply embed_loop_trace in Hloop as (outs & _ & _ & _ & _ & d & -> & _).
    right. exists d. reflexivity.
Qed.

(** C9: on an argument that is not a list of documents, [run] raises its
    [TypeError] at once: the state is the one it was called in, so no text
    was prepared into a request, no remote call was made and nothing was
    logged.  On a list of documents, the empty one included, [run] raises
    no [TypeError]. *)
Theorem C9_type_contract self arg st :
  (¬ is_list_of_documents arg → run self arg st = (Raised run_type_error, st))
  ∧ (is_list_of_documents arg → ∀ msg, (run self arg st).1 ≠ Raised (TypeError msg)).
Proof.
  split.
  - intros Hnot. destruct arg as [items|v]; [|reflexivity].
    unfold run.
    destruct (forallb isinstance_Document items) eqn:Hall; [|reflexivity].
    exfalso. apply Hnot, is_list_of_documents_check. eauto.
  - intros [docs ->] msg. unfold run.
    rewrite forallb_isinstance_map.
    destruct (_embed_batch _ _ _ _ _ _) as [[[e m]|x] st1] eqn:Hb; simpl; [discriminate|].
    apply embed_batch_raises in Hb as [->|[d ->]]; discriminate.
Qed.

End TypeContract.

Lemma C9_type_contract_witness :
  run Script scripted_create default_embedder (ArgOther (PyStr "I love pizza!"))
    (scripted_state two_docs first_call_fails)
  = (Raised run_type_error, scripted_state two_docs first_call_fails)
  ∧ run Script scripted_create default_embedder
      (ArgList [ObjDocument 0; ObjOther (PyStr "I love pizza!")])
      (scripted_state two_docs first_call_fails)
    = (Raised run_type_error, scripted_state two_docs first_call_fails)
  ∧ (∀ msg, (run Script scripted_create default_embedder (ArgList [])
               (scripted_state two_docs first_call_fails)).1 ≠ Raised (TypeError msg)).
Proof.
  split; [|split].
  - apply (C9_type_contract Script scripted_create default_embedder
             (ArgOther (PyStr "I love pizza!"))).
    intros [docs Hdocs]. discriminate.
  - apply (C9_type_contract Script scripted_create default_embedder
             (ArgList [ObjDocument 0; ObjOther (PyStr "I love pizza!")])).
    intros [docs Hdocs]. injection Hdocs as Hdocs.
    destruct docs as [|l0 [|l1 docs]]; discriminate.
  - apply (C9_type_contract Script scripted_create default_embedder (ArgList [])).
    exists []. reflexivity.
Defined.

(** ** Construction *)

Local Open Scope string_scope.

(** A concrete outside world for the examples: [float] and [int] read the
    two default literals, a secret is looked up in the environment under
    its name, the constructors of the clients always succeed and the world
    counts the clients made.  The client made is the record of the
    arguments it was made with. *)
Definition demo_float (text : string) : PyResult float :=
  if String.eqb text "30.0" then Returned (float_of_nat 30)
  else Raised (ValueError "could not convert string to float").

Definition demo_int (text : string) : PyResult Z :=
  if String.eqb text "5" then Returned 5%Z
  else Raised (ValueError "invalid literal for int() with base 10").

Definition demo_resolve_value (secret : Secret) (environ : Environ) : PyResult (option string) :=
  match environ !! secret_env_var secret with
  | Some value => Returned (Some value)
  | None =>
      if secret_strict secret
      then Raised (ValueError "None of the following authentication environment variables are set")
      else Returned None
  end.

Definition demo_httpx_Client (kwargs : gmap string PyValue) (w : nat) : PyResult unit * nat :=
  (Returned tt, S w).

Definition demo_AzureOpenAI (args : ClientArgs string unit) (w : nat)
    : PyResult (ClientArgs string unit) * nat :=
  (Returned args, S w).

Definition demo_init :=
  __init__ demo_float demo_int demo_resolve_value demo_httpx_Client demo_AzureOpenAI.

Definition demo_Secret_to_dict (s : Secret) : string * bool :=
  (secret_env_var s, secret_strict s).

Definition demo_Secret_from_dict (d : string * bool) : PyResult Secret :=
  Returned {| secret_env_var := d.1; secret_strict := d.2 |}.

Definition demo_serialize_callable (p : TokenProvider string) : PyResult string :=
  match p with
  | ProviderCallable f => Returned f
  | ProviderName _ => Raised (TypeError "not a callable")
  end.

Definition demo_deserialize_callable (name : string) : PyResult string :=
  Returned name.

(** The arguments of [AzureOpenAIDocumentEmbedder()] with every parameter
    at its default. *)
Definition default_args : InitArgs string :=
  {| init_azure_endpoint := None;
     init_api_version := Some "2023-05-15";
     init_azure_deployment := "text-embedding-ada-002";
     init_dimensions := None;
     init_api_key := Some (from_env_var "AZURE_OPENAI_API_KEY" false);
     init_azure_ad_token := Some (from_env_var "AZURE_OPENAI_AD_TOKEN" false);
     init_organization := None;
     init_prefix := "";
     init_suffix := "";
     init_batch_size := 32;
     init_progress_bar := true;
     init_meta_fields_to_embed := None;
     init_embedding_separator := String newline EmptyString;
     init_timeout := None;
     init_max_retries := None;
     init_default_headers := None;
     init_azure_ad_token_provider := None;
     init_http_client_kwargs := None |}.

(** The defaults with the given endpoint, credentials and token provider. *)
Definition args_with (endpoint : option string) (api_key azure_ad_token : option Secret)
    (provider : option (TokenProvider string)) : InitArgs string :=
  {| init_azure_endpoint := endpoint;
     init_api_version := init_api_version default_args;
     init_azure_deployment := init_azure_deployment default_args;
     init_dimensions := init_dimensions default_args;
     init_api_key := api_key;
     init_azure_ad_token := azure_ad_token;
     init_organization := init_organization default_args;
     init_prefix := init_prefix default_args;
     init_suffix := init_suffix default_args;
     init_batch_size := init_batch_size default_args;
     init_progress_bar := init_progress_bar default_args;
     init_meta_fields_to_embed := init_meta_fields_to_embed default_args;
     init_embedding_separator := init_embedding_separator default_args;
     init_timeout := init_timeout default_args;
     init_max_retries := init_max_retries default_args;
     init_default_headers := init_default_headers default_args;
     init_azure_ad_token_provider := provider;
     init_http_client_kwargs := init_http_client_kwargs default_args |}.

Definition azure_environ : Environ :=
  {[ "AZURE_OPENAI_ENDPOINT" := "https://example-resource.azure.openai.com/";
     "AZURE_OPENAI_API_KEY" := "fake-api-key" ]}.

Section ConstructionFacts.

Variables Callable Client HttpClient World : Type.
Variable py_float : string -> PyResult float.
Variable py_int : string -> PyResult Z.
Variable resolve_value : Secret -> Environ -> PyResult (option string).
Variable httpx_Client : gmap string PyValue -> World -> PyResult HttpClient * World.
Variable AzureOpenAI : ClientArgs Callable HttpClient -> World -> PyResult Client * World.

Local Abbreviation init := (__init__ py_float py_int resolve_value httpx_Client AzureOpenAI).
Local Abbreviation new_client := (create_client resolve_value httpx_Client AzureOpenAI).

Lemma init_endpoint_unresolved (args : InitArgs Callable) environ w :
  str_falsy (str_or (init_azure_endpoint args) (environ !! "AZURE_OPENAI_ENDPOINT")) = true →
  init args environ w = (Raised endpoint_error, w).
Proof. intros H. unfold __init__. rewrite H. reflexivity. Qed.

(** C6: when no endpoint is passed and the environment has no
    AZURE_OPENAI_ENDPOINT, [__init__] raises its [ValueError] and leaves
    the world as it found it, whatever the constructors of the HTTP client
    and of the Azure client would do: neither has been called, and no
    component comes into being on which [run] could be called. *)
Theorem C6_missing_endpoint (args : InitArgs Callable) environ w :
  init_azure_endpoint args = None →
  environ !! "AZURE_OPENAI_ENDPOINT" = None →
  init args environ w = (Raised endpoint_error, w).
Proof.
  intros Hnone Henv. apply init_endpoint_unresolved.
  rewrite Hnone, Henv. reflexivity.
Qed.

Lemma init_credentials_checked (args : InitArgs Callable) environ w endpoint :
  str_or (init_azure_endpoint args) (environ !! "AZURE_OPENAI_ENDPOINT") = Some endpoint →
  endpoint ≠ "" →
  init args environ w
  = if bool_decide (init_api_key args = None ∧ init_azure_ad_token args = None)
    then (Raised credential_error, w)
    else bind (pure_call (timeout_of py_float args environ)) (fun timeout =>
         bind (pure_call (max_retries_of py_int args environ)) (fun max_retries =>
         bind (new_client (set_attributes args endpoint timeout max_retries) environ)
           (fun client =>
              ret {| attributes := set_attributes args endpoint timeout max_retries;
                     _client := client |}))) w.
Proof.
  intros Hep Hne. unfold __init__. rewrite Hep. simpl.
  destruct (String.eqb_spec endpoint ""); [congruence|].
  case_bool_decide; reflexivity.
Qed.

(** C7, as the constructor checks it: with a resolvable endpoint, [__init__] raises the
    credential [ValueError], before any client is made, when neither an
    API key nor an identity token is passed, whether a token provider is
    passed or not; and when at least one of the two is passed, the
    credential check passes: if the timeout and the retry count resolve
    and the client is created, [__init__] returns the component. *)
Theorem C7_credential_check (args : InitArgs Callable) environ w endpoint :
  str_or (init_azure_endpoint args) (environ !! "AZURE_OPENAI_ENDPOINT") = Some endpoint →
  endpoint ≠ "" →
  (init_api_key args = None ∧ init_azure_ad_token args = None →
   init args environ w = (Raised credential_error, w))
  ∧ (¬ (init_api_key args = None ∧ init_azure_ad_token args = None) →
     ∀ timeout max_retries client w',
       timeout_of py_float args environ = Returned timeout →
       max_retries_of py_int args environ = Returned max_retries →
       new_client (set_attributes args endpoint timeout max_retries) environ w
       = (Returned client, w') →
       init args environ w
       = (Returned {| attributes := set_attributes args endpoint timeout max_retries;
                      _client := client |}, w')).
Proof.
  intros Hep Hne. rewrite (init_credentials_checked _ _ _ _ Hep Hne). split.
  - intros Hnone. rewrite bool_decide_eq_true_2 by exact Hnone. reflexivity.
  - intros Hsome timeout max_retries client w' Ht Hr Hclient.
    rewrite bool_decide_eq_false_2 by exact Hsome.
    unfold bind, pure_call. rewrite Ht, Hr, Hclient. reflexivity.
Qed.

End ConstructionFacts.

Lemma C6_missing_endpoint_witness :
  demo_init default_args ∅ 0 = (Raised endpoint_error, 0).
Proof.
  apply (C6_missing_endpoint string (ClientArgs string unit) unit nat
           demo_float demo_int demo_resolve_value demo_httpx_Client demo_AzureOpenAI
           default_args ∅ 0).
  - reflexivity.
  - reflexivity.
Defined.

(** No API key, no identity token, only a token provider. *)
Definition provider_only_args : InitArgs string :=
  args_with None None None (Some (ProviderCallable "get_token")).

Definition demo_endpoint : string := "https://example-resource.azure.openai.com/".

(** The environment of [azure_environ] with a timeout that is no number. *)
Definition bad_timeout_environ : Environ :=
  <[ "OPENAI_TIMEOUT" := "soon" ]> azure_environ.

(** Where the equivalence fails.  A token provider is given and the
    endpoint resolves, and still [__init__] raises the credential error.
    An API key is given and the endpoint resolves, and [__init__] raises
    all the same, because the timeout in the environment is no number. *)
Lemma C7_equivalence_fails :
  (init_azure_ad_token_provider provider_only_args = Some (ProviderCallable "get_token")
   ∧ str_or (init_azure_endpoint provider_only_args)
       (azure_environ !! "AZURE_OPENAI_ENDPOINT") = Some demo_endpoint
   ∧ demo_init provider_only_args azure_environ 0 = (Raised credential_error, 0))
  ∧ (init_api_key default_args = Some (from_env_var "AZURE_OPENAI_API_KEY" false)
     ∧ str_or (init_azure_endpoint default_args)
         (bad_timeout_environ !! "AZURE_OPENAI_ENDPOINT") = Some demo_endpoint
     ∧ demo_init default_args bad_timeout_environ 0
       = (Raised (ValueError "could not convert string to float"), 0)).
Proof. vm_compute. repeat split. Qed.

Lemma C7_credential_check_witness :
  demo_init provider_only_args azure_environ 0 = (Raised credential_error, 0)
  ∧ demo_init default_args azure_environ 0
    = (Returned
         {| attributes := set_attributes default_args demo_endpoint (float_of_nat 30) 5;
            _client :=
              {| client_api_version := Some "2023-05-15";
                 client_azure_endpoint := demo_endpoint;
                 client_azure_deployment := "text-embedding-ada-002";
                 client_azure_ad_token_provider := None;
                 client_api_key := Some "fake-api-key";
                 client_azure_ad_token := None;
                 client_organization := None;
                 client_timeout := float_of_nat 30;
                 client_max_retries := 5;
                 client_default_headers := ∅;
                 client_http_client := None |} |}, 1).
Proof.
  split.
  - apply (C7_credential_check string (ClientArgs string unit) unit nat
             demo_float demo_int demo_resolve_value demo_httpx_Client demo_AzureOpenAI
             provider_only_args azure_environ 0 demo_endpoint).
    + reflexivity.
    + discriminate.
    + split; reflexivity.
  - apply (C7_credential_check string (ClientArgs string unit) unit nat
             demo_float demo_int demo_resolve_value demo_httpx_Client demo_AzureOpenAI
             default_args azure_environ 0 demo_endpoint).
    + reflexivity.
    + discriminate.
    + intros [Hkey _]. discriminate.
    + reflexivity.
    + reflexivity.
    + reflexivity.
Defined.

(** ** Serialization round trip *)

Section SerializationFacts.

Variables Callable Client HttpClient World : Type.
Variable py_float : string -> PyResult float.
Variable py_int : string -> PyResult Z.
Variable resolve_value : Secret -> Environ -> PyResult (option string).
Variable httpx_Client : gmap string PyValue -> World -> PyResult HttpClient * World.
Variable AzureOpenAI : ClientArgs Callable HttpClient -> World -> PyResult Client * World.
Variable SecretDescriptor : Type.
Variable Secret_to_dict : Secret -> SecretDescriptor.
Variable Secret_from_dict : SecretDescriptor -> PyResult Secret.
Variable serialize_callable : TokenProvider Callable -> PyResult string.
Variable deserialize_callable : string -> PyResult Callable.

Local Abbreviation init := (__init__ py_float py_int resolve_value httpx_Client AzureOpenAI).
Local Abbreviation new_client := (create_client resolve_value httpx_Client AzureOpenAI).
Local Abbreviation serialize := (@to_dict Callable Client _ Secret_to_dict serialize_callable).
Local Abbreviation deserialize :=
  (from_dict py_float py_int resolve_value httpx_Client AzureOpenAI
     Secret_from_dict deserialize_callable).

(** The descriptor of a secret leads back to the secret. *)
Definition secrets_resolvable : Prop :=
  ∀ s, Secret_from_dict (Secret_to_dict s) = Returned s.

(** The token provider is a callable that serializes to a non-empty name
    under which it is found again. *)
Definition provider_named (p : TokenProvider Callable) : Prop :=
  ∃ f name, p = ProviderCallable f
            ∧ serialize_callable p = Returned name
            ∧ name ≠ ""
            ∧ deserialize_callable name = Returned f.

(** What a component that [__init__] returned looks like. *)
Lemma init_returns_inv (args : InitArgs Callable) environ w c w' :
  init args environ w = (Returned c, w') →
  ∃ endpoint timeout max_retries,
    str_or (init_azure_endpoint args) (environ !! "AZURE_OPENAI_ENDPOINT") = Some endpoint
    ∧ timeout_of py_float args environ = Returned timeout
    ∧ max_retries_of py_int args environ = Returned max_retries
    ∧ endpoint ≠ ""
    ∧ ¬ (init_api_key args = None ∧ init_azure_ad_token args = None)
    ∧ attributes c = set_attributes args endpoint timeout max_retries.
Proof.
  unfold __init__.
  destruct (str_or _ _) as [endpoint|] eqn:Hep; simpl; [|discriminate].
  destruct (String.eqb_spec endpoint ""); [discriminate|].
  case_bool_decide as Hcred; [discriminate|].
  unfold bind, pure_call.
  destruct (timeout_of _ _ _) as [timeout|] eqn:Ht; [|discriminate].
  destruct (max_retries_of _ _ _) as [max_retries|] eqn:Hr; [|discriminate].
  destruct (create_client _ _ _ _ _ _) as [[client|] w1]; [|discriminate].
  intros [= <- _]. exists endpoint, timeout, max_retries. auto 10.
Qed.

(** Reconstruction from the serialized form of [c] sets the attributes of
    [c] again and makes a new client from them. *)
Lemma from_dict_to_dict (args : InitArgs Callable) env0 w0 c w1 environ w :
  init args env0 w0 = (Returned c, w1) →
  secrets_resolvable →
  (∀ p, init_azure_ad_token_provider args = Some p → provider_named p) →
  ∃ data,
    serialize c = Returned data
    ∧ ser_api_key (init_parameters data) = Secret_to_dict <$> init_api_key args
    ∧ ser_azure_ad_token (init_parameters data) = Secret_to_dict <$> init_azure_ad_token args
    ∧ (∀ f, init_azure_ad_token_provider args = Some (ProviderCallable f) →
         ∃ name, ser_azure_ad_token_provider (init_parameters data) = Some name
                 ∧ deserialize_callable name = Returned f)
    ∧ deserialize data environ w
      = bind (new_client (attributes c) environ)
          (fun client => ret {| attributes := attributes c; _client := client |}) w.
Proof.
  intros Hinit Hsecret Hprov.
  destruct (init_returns_inv _ _ _ _ _ Hinit)
    as (endpoint & timeout & max_retries & _ & _ & _ & Hne & Hcred & Hattrs).
  assert (Hname : ∃ oname,
            match init_azure_ad_token_provider args with
            | Some p => if provider_truthy p then
                          match serialize_callable p with
                          | Returned name => Returned (Some name)
                          | Raised e => Raised e
                          end
                        else Returned None
            | None => Returned None
            end = Returned oname
            ∧ match oname with
              | Some name =>
                  ∃ f, init_azure_ad_token_provider args = Some (ProviderCallable f)
                       ∧ name ≠ "" ∧ deserialize_callable name = Returned f
              | None => init_azure_ad_token_provider args = None
              end).
  { destruct (init_azure_ad_token_provider args) as [p|] eqn:Hp.
    - destruct (Hprov p eq_refl) as (f & name & -> & Hser & Hnm & Hde).
      exists (Some name). simpl. rewrite Hser. eauto.
    - exists None. auto. }
  destruct Hname as (oname & Hser & Honame).
  eexists. unfold to_dict. rewrite Hattrs. simpl. rewrite Hser.
  split; [reflexivity|]. simpl.
  split; [reflexivity|]. split; [reflexivity|].
  split.
  { intros f Hf. rewrite Hf in Honame. destruct oname as [name|]; [|discriminate].
    destruct Honame as (f' & [= <-] & _ & Hde). eauto. }
  unfold from_dict, default_from_dict, deserialize_secret. simpl.
  assert (Hsec : ∀ k : option Secret,
            match Secret_to_dict <$> k with
            | Some descriptor =>
                bind (pure_call (Secret_from_dict descriptor)) (fun s => ret (Some s))
            | None => ret None
            end w = (Returned k, w)).
  { intros [s|]; simpl; [|reflexivity]. unfold bind, pure_call. rewrite Hsecret. reflexivity. }
  unfold bind at 1. rewrite Hsec. unfold bind at 1. rewrite Hsec.
  assert (Hprovider :
            match oname with
            | Some name =>
                if negb (String.eqb name "")
                then bind (pure_call (deserialize_callable name))
                       (fun f => ret (Some (ProviderCallable f)))
                else ret (Some (ProviderName name))
            | None => ret None
            end w = (Returned (init_azure_ad_token_provider args), w)).
  { destruct oname as [name|].
    - destruct Honame as (f & -> & Hnm & Hde).
      destruct (String.eqb_spec name ""); [congruence|]. simpl.
      unfold bind, pure_call. rewrite Hde. reflexivity.
    - rewrite Honame. reflexivity. }
  unfold bind at 1. rewrite Hprovider.
  erewrite init_credentials_checked; [|simpl; destruct (String.eqb_spec endpoint ""); [congruence|reflexivity]|exact Hne].
  simpl. rewrite bool_decide_eq_false_2 by exact Hcred.
  reflexivity.
Qed.

End SerializationFacts.

(** The attributes of a component do not depend on what its secrets
    resolve to, nor on the clients made. *)
Lemma attributes_independent_of_secret_values
    (Callable Client HttpClient World : Type) py_float py_int
    (resolve1 resolve2 : Secret → Environ → PyResult (option string))
    (httpx1 httpx2 : gmap string PyValue → World → PyResult HttpClient * World)
    (azure1 azure2 : ClientArgs Callable HttpClient → World → PyResult Client * World)
    (args : InitArgs Callable) environ w1 w2 c1 c2 w1' w2' :
  __init__ py_float py_int resolve1 httpx1 azure1 args environ w1 = (Returned c1, w1') →
  __init__ py_float py_int resolve2 httpx2 azure2 args environ w2 = (Returned c2, w2') →
  attributes c1 = attributes c2.
Proof.
  intros H1 H2.
  apply init_returns_inv in H1 as (e1 & t1 & r1 & He1 & Ht1 & Hr1 & _ & _ & ->).
  apply init_returns_inv in H2 as (e2 & t2 & r2 & He2 & Ht2 & Hr2 & _ & _ & ->).
  congruence.
Qed.

Lemma to_dict_attributes (Callable Client SecretDescriptor : Type)
    (Secret_to_dict : Secret → SecretDescriptor)
    (serialize_callable : TokenProvider Callable → PyResult string)
    (c1 c2 : Component Callable Client) :
  attributes c1 = attributes c2 →
  to_dict Secret_to_dict serialize_callable c1 = to_dict Secret_to_dict serialize_callable c2.
Proof. intros H. unfold to_dict. rewrite H. reflexivity. Qed.

(** C8: take a component that [__init__] returned, with secrets whose
    descriptors lead back to them and a token provider (if any) that is a
    callable known by a name.  Serializing it succeeds; in the serialized
    form each credential is the descriptor of the secret reference that was
    passed to the constructor, the token provider is the name under which
    it is found again, and nothing depends on what the secrets resolve to
    (a construction from the same arguments with any other secret
    resolution serializes to the same record).  Reconstructing from the
    serialized form sets the same attributes: whenever it returns a
    component its attributes equal the original ones, and it does return
    one as soon as the client can be created from those attributes. *)
Theorem C8_serialization_round_trip
    (Callable Client HttpClient World SecretDescriptor : Type)
    (py_float : string → PyResult float) (py_int : string → PyResult Z)
    (resolve_value : Secret → Environ → PyResult (option string))
    (httpx_Client : gmap string PyValue → World → PyResult HttpClient * World)
    (AzureOpenAI : ClientArgs Callable HttpClient → World → PyResult Client * World)
    (Secret_to_dict : Secret → SecretDescriptor)
    (Secret_from_dict : SecretDescriptor → PyResult Secret)
    (serialize_callable : TokenProvider Callable → PyResult string)
    (deserialize_callable : string → PyResult Callable)
    (args : InitArgs Callable) env0 w0 c w1 environ w :
  __init__ py_float py_int resolve_value httpx_Client AzureOpenAI args env0 w0
  = (Returned c, w1) →
  secrets_resolvable SecretDescriptor Secret_to_dict Secret_from_dict →
  (∀ p, init_azure_ad_token_provider args = Some p →
        provider_named Callable serialize_callable deserialize_callable p) →
  ∃ data,
    to_dict Secret_to_dict serialize_callable c = Returned data
    ∧ ser_api_key (init_parameters data) = Secret_to_dict <$> init_api_key args
    ∧ ser_azure_ad_token (init_parameters data) = Secret_to_dict <$> init_azure_ad_token args
    ∧ (∀ f, init_azure_ad_token_provider args = Some (ProviderCallable f) →
         ∃ name, ser_azure_ad_token_provider (init_parameters data) = Some name
                 ∧ deserialize_callable name = Returned f)
    ∧ (∀ (resolve' : Secret → Environ → PyResult (option string))
         (httpx' : gmap string PyValue → World → PyResult HttpClient * World)
         (azure' : ClientArgs Callable HttpClient → World → PyResult Client * World)
         (w2 : World) (c2 : Component Callable Client) (w2' : World),
         __init__ py_float py_int resolve' httpx' azure' args env0 w2 = (Returned c2, w2') →
         to_dict Secret_to_dict serialize_callable c2 = Returned data)
    ∧ (∀ c' w',
         from_dict py_float py_int resolve_value httpx_Client AzureOpenAI
           Secret_from_dict deserialize_callable data environ w = (Returned c', w') →
         attributes c' = attributes c)
    ∧ (∀ client w',
         create_client resolve_value httpx_Client AzureOpenAI (attributes c) environ w
         = (Returned client, w') →
         from_dict py_float py_int resolve_value httpx_Client AzureOpenAI
           Secret_from_dict deserialize_callable data environ w
         = (Returned {| attributes := attributes c; _client := client |}, w')).
Proof.
  intros Hinit Hsecret Hprov.
  destruct (from_dict_to_dict _ _ _ _ _ _ _ _ _ _ _ _ _ _ _ _ _ _ _ environ w
              Hinit Hsecret Hprov)
    as (data & Hser & Hkey & Htoken & Hname & Hback).
  exists data.
  split; [exact Hser|]. split; [exact Hkey|]. split; [exact Htoken|].
  split; [exact Hname|].
  split.
  { intros resolve' httpx' azure' w2 c2 w2' Hinit2. rewrite <- Hser.
    apply to_dict_attributes.
    exact (attributes_independent_of_secret_values _ _ _ _ _ _ _ _ _ _ _ _ _ _ _ _ _ _ _ _
             Hinit2 Hinit). }
  split.
  - intros c' w' Hfrom. rewrite Hback in Hfrom. unfold bind in Hfrom.
    destruct (create_client _ _ _ _ _ _) as [[client|e] w2]; [|discriminate].
    injection Hfrom as <- _. reflexivity.
  - intros client w' Hclient. rewrite Hback. unfold bind. rewrite Hclient. reflexivity.
Qed.

(** An embedder made with an API key read from the environment and a
    token provider known as "get_token". *)
Definition keyed_args : InitArgs string :=
  args_with None (Some (from_env_var "AZURE_OPENAI_API_KEY" true)) None
    (Some (ProviderCallable "get_token")).

Definition keyed_component : Component string (ClientArgs string unit) :=
  {| attributes := set_attributes keyed_args demo_endpoint (float_of_nat 30) 5;
     _client :=
       {| client_api_version := Some "2023-05-15";
          client_azure_endpoint := demo_endpoint;
          client_azure_deployment := "text-embedding-ada-002";
          client_azure_ad_token_provider := Some (ProviderCallable "get_token");
          client_api_key := Some "fake-api-key";
          client_azure_ad_token := None;
          client_organization := None;
          client_timeout := float_of_nat 30;
          client_max_retries := 5;
          client_default_headers := ∅;
          client_http_client := None |} |}.

Definition demo_from_dict :=
  from_dict demo_float demo_int demo_resolve_value demo_httpx_Client demo_AzureOpenAI
    demo_Secret_from_dict demo_deserialize_callable.

Lemma C8_serialization_round_trip_witness :
  ∃ data,
    to_dict demo_Secret_to_dict demo_serialize_callable keyed_component = Returned data
    ∧ ser_api_key (init_parameters data) = demo_Secret_to_dict <$> init_api_key keyed_args
    ∧ ser_azure_ad_token (init_parameters data)
      = demo_Secret_to_dict <$> init_azure_ad_token keyed_args
    ∧ (∀ f, init_azure_ad_token_provider keyed_args = Some (ProviderCallable f) →
         ∃ name, ser_azure_ad_token_provider (init_parameters data) = Some name
                 ∧ demo_deserialize_callable name = Returned f)
    ∧ (∀ (resolve' : Secret → Environ → PyResult (option string))
         (httpx' : gmap string PyValue → nat → PyResult unit * nat)
         (azure' : ClientArgs string unit → nat → PyResult (ClientArgs string unit) * nat)
         (w2 : nat) (c2 : Component string (ClientArgs string unit)) (w2' : nat),
         __init__ demo_float demo_int resolve' httpx' azure' keyed_args azure_environ w2
         = (Returned c2, w2') →
         to_dict demo_Secret_to_dict demo_serialize_callable c2 = Returned data)
    ∧ (∀ c' w', demo_from_dict data azure_environ 1 = (Returned c', w') →
         attributes c' = attributes keyed_component)
    ∧ (∀ client w',
         create_client demo_resolve_value demo_httpx_Client demo_AzureOpenAI
           (attributes keyed_component) azure_environ 1 = (Returned client, w') →
         demo_from_dict data azure_environ 1
         = (Returned {| attributes := attributes keyed_component; _client := client |}, w')).
Proof.
  apply (C8_serialization_round_trip string (ClientArgs string unit) unit nat (string * bool)
           demo_float demo_int demo_resolve_value demo_httpx_Client demo_AzureOpenAI
           demo_Secret_to_dict demo_Secret_from_dict
           demo_serialize_callable demo_deserialize_callable
           keyed_args azure_environ 0 keyed_component 1 azure_environ 1).
  - reflexivity.
  - intros [name strict]. reflexivity.
  - intros p [= <-]. exists "get_token", "get_token".
    repeat split. discriminate.
Defined.

(** The round trip, computed: the serialized form of the example holds the
    name of the environment variable and of the token provider, not the
    key, and reconstruction gives the component back. *)
Example keyed_component_round_trip :
  demo_init keyed_args azure_environ 0 = (Returned keyed_component, 1)
  ∧ match to_dict demo_Secret_to_dict demo_serialize_callable keyed_component with
    | Returned data =>
        ser_api_key (init_parameters data) = Some ("AZURE_OPENAI_API_KEY", true)
        ∧ ser_azure_ad_token_provider (init_parameters data) = Some "get_token"
        ∧ demo_from_dict data azure_environ 1 = (Returned keyed_component, 2)
    | Raised _ => False
    end.
Proof. vm_compute. repeat split. Qed.

(** * Further properties of the component *)

Local Open Scope list_scope.
Local Open Scope nat_scope.

(** ** What the text preparer reads *)

Lemma meta_values_agree fields d1 d2 :
  (∀ key, key ∈ fields → doc_meta d1 !! key = doc_meta d2 !! key) →
  meta_values_to_embed fields d1 = meta_values_to_embed fields d2.
Proof.
  induction fields as [|key fields IH]; intros Hagree; simpl; [reflexivity|].
  rewrite (Hagree key) by (left).
  rewrite IH by (intros k Hk; apply Hagree; right; exact Hk).
  reflexivity.
Qed.

Lemma text_to_embed_same_fields self d1 d2 :
  doc_content d1 = doc_content d2 →
  doc_meta d1 = doc_meta d2 →
  text_to_embed self d1 = text_to_embed self d2.
Proof.
  intros Hcontent Hmeta. unfold text_to_embed, content_or_empty.
  rewrite (meta_values_agree _ d1 d2), Hcontent; [reflexivity|].
  intros key _. rewrite Hmeta. reflexivity.
Qed.

(** The prepared text of a document depends on its content and on the
    metadata fields configured for embedding, and on nothing else: not on
    its identifier, its embedding, or any other metadata. *)
Theorem text_to_embed_reads_content_and_configured_meta self d1 d2 :
  doc_content d1 = doc_content d2 →
  (∀ key, key ∈ meta_fields_to_embed self → doc_meta d1 !! key = doc_meta d2 !! key) →
  text_to_embed self d1 = text_to_embed self d2.
Proof.
  intros Hcontent Hmeta. unfold text_to_embed, content_or_empty.
  rewrite (meta_values_agree _ _ _ Hmeta), Hcontent. reflexivity.
Qed.

Definition pizza_doc_with_author : Document :=
  {| doc_id := "doc-9"; doc_content := Some "I love pizza!";
     doc_meta := {[ "topic" := PyStr "food"; "author" := PyStr "anonymous" ]};
     doc_embedding := Some [PrimFloat.one] |}.

Lemma text_to_embed_reads_content_and_configured_meta_witness :
  text_to_embed (with_meta_fields default_embedder ["topic"]) pizza_doc_with_topic
  = text_to_embed (with_meta_fields default_embedder ["topic"]) pizza_doc_with_author.
Proof.
  apply (text_to_embed_reads_content_and_configured_meta
           (with_meta_fields default_embedder ["topic"])
           pizza_doc_with_topic pizza_doc_with_author).
  - reflexivity.
  - intros key Hkey. apply list_elem_of_singleton in Hkey as ->. reflexivity.
Defined.

(** ** The keys and entries of the prepared mapping *)

Lemma dict_setitem_entries {V} (d : OrderedDict V) k v kv :
  kv ∈ dict_setitem d k v → kv = (k, v) ∨ kv ∈ d.
Proof.
  induction d as [|[k' v'] d IH]; simpl.
  - intros H. apply list_elem_of_singleton in H. left. exact H.
  - destruct (String.eqb_spec k' k) as [->|Hne]; intros H;
      apply elem_of_cons in H as [H|H].
    + left. exact H.
    + right. right. exact H.
    + right. rewrite H. left.
    + destruct (IH H) as [?|?]; [left; assumption|right; right; assumption].
Qed.

Lemma prepare_loop_entries self s docs : ∀ acc kv,
  kv ∈ prepare_loop self s docs acc →
  kv ∈ acc ∨ ∃ l, l ∈ docs ∧ kv = entry_of self s l.
Proof.
  induction docs as [|l docs IH]; intros acc kv Hin; simpl in Hin; [left; exact Hin|].
  apply IH in Hin as [Hin|(l' & Hl' & ->)].
  - apply dict_setitem_entries in Hin as [->|Hin]; [|left; exact Hin].
    right. exists l. split; [left|reflexivity].
  - right. exists l'. split; [right; exact Hl'|reflexivity].
Qed.

(** The mapping built by [_prepare_texts_to_embed] has pairwise distinct
    keys, its keys are exactly the identifiers of the documents, it is
    never longer than the document list, and each of its texts is the
    prepared text of a document that carries the key. *)
Theorem prepared_mapping_keys_and_entries self s docs :
  NoDup (map fst (_prepare_texts_to_embed self s docs))
  ∧ (∀ k, k ∈ map fst (_prepare_texts_to_embed self s docs) ↔ k ∈ ids_of s docs)
  ∧ length (_prepare_texts_to_embed self s docs) ≤ length docs
  ∧ (∀ k text, (k, text) ∈ _prepare_texts_to_embed self s docs →
       ∃ l, l ∈ docs ∧ doc_id (s l) = k ∧ text = text_to_embed self (s l)).
Proof.
  unfold _prepare_texts_to_embed.
  destruct (prepare_loop_keys self s docs []) as [Hnd Hkeys]; [constructor|].
  split; [exact Hnd|]. split.
  { intros k. rewrite Hkeys. split; [intros [H|H]; [inversion H|exact H]|auto]. }
  split; [apply (prepare_loop_length self s docs [])|].
  intros k text Hin. apply prepare_loop_entries in Hin as [Hin|(l & Hl & Heq)].
  - inversion Hin.
  - exists l. unfold entry_of in Heq. injection Heq as -> ->. auto.
Qed.

(** ** Every execution of [run] *)

Lemma set_embedding_fields d emb :
  doc_id (set_embedding d emb) = doc_id d
  ∧ doc_content (set_embedding d emb) = doc_content d
  ∧ doc_meta (set_embedding d emb) = doc_meta d.
Proof. repeat split. Qed.

Lemma assign_embeddings_fields pairs : ∀ s l,
  doc_id (assign_embeddings pairs s l) = doc_id (s l)
  ∧ doc_content (assign_embeddings pairs s l) = doc_content (s l)
  ∧ doc_meta (assign_embeddings pairs s l) = doc_meta (s l).
Proof.
  induction pairs as [|[l0 emb] pairs IH]; intros s l; simpl; [auto|].
  destruct (IH (store_assign s l0 emb) l) as (-> & -> & ->).
  unfold store_assign. destruct (Nat.eqb_spec l l0) as [->|_]; auto.
Qed.

Lemma prepare_loop_agree self s s' docs : ∀ acc,
  (∀ l, doc_id (s' l) = doc_id (s l) ∧ doc_content (s' l) = doc_content (s l)
        ∧ doc_meta (s' l) = doc_meta (s l)) →
  prepare_loop self s' docs acc = prepare_loop self s docs acc.
Proof.
  intros acc Hagree. revert acc.
  induction docs as [|l docs IH]; intros acc; simpl; [reflexivity|].
  destruct (Hagree l) as (-> & Hc & Hm).
  rewrite (text_to_embed_same_fields self (s' l) (s l) Hc Hm).
  apply IH.
Qed.

Section EveryExecution.

Variable World : Type.
Variable embeddings_create : CreateArgs -> World -> CallOutcome * World.

Local Abbreviation embed_loop := (embed_loop World embeddings_create).
Local Abbreviation run := (run World embeddings_create).

(** The three ways an execution of [run] can go. *)
Inductive run_case (self : Embedder) (arg : PyArg) (st : State World)
    (res : PyResult RunOutput) (st' : State World) : Prop :=
| run_rejected :
    ¬ is_list_of_documents arg → res = Raised run_type_error → st' = st →
    run_case self arg st res st'
| run_unbatched docs :
    arg = ArgList (map ObjDocument docs) → (batch_size self < 1)%Z →
    res = Raised (ValueError "n must be at least one") → st' = st →
    run_case self arg st res st'
| run_looped docs groups outs res1 st1 :
    arg = ArgList (map ObjDocument docs) → (1 ≤ batch_size self)%Z →
    batched (_prepare_texts_to_embed self (store st) docs) (batch_size self)
    = Returned groups →
    embed_loop self groups [] initial_meta st = (res1, st1) →
    loop_post World self groups [] initial_meta st res1 st1 outs →
    (res, st') = match res1 with
                 | Returned (embeddings, meta) =>
                     (Returned {| out_documents := docs; out_meta := meta |},
                      with_store World st1
                        (assign_embeddings (zip docs embeddings) (store st1)))
                 | Raised e => (Raised e, st1)
                 end →
    run_case self arg st res st'.

Lemma run_cases self arg st res st' :
  run self arg st = (res, st') → run_case self arg st res st'.
Proof.
  intros Hrun. destruct arg as [items|v].
  - destruct (forallb isinstance_Document items) eqn:Hall.
    + rewrite (forallb_isinstance_inv items Hall) in Hrun |- *.
      set (docs := document_refs items) in *. clearbody docs. clear Hall items.
      destruct (Z.ltb_spec (batch_size self) 1) as [Hlt|Hge].
      * rewrite run_batch_size_below_one in Hrun by exact Hlt.
        injection Hrun as <- <-. eapply run_unbatched; eauto.
      * unfold run in Hrun.
        rewrite forallb_isinstance_map, document_refs_map in Hrun.
        unfold _embed_batch in Hrun. rewrite (batched_positive _ _ Hge) in Hrun.
        destruct (embed_loop self _ [] initial_meta st) as [res1 st1] eqn:Hloop.
        destruct (embed_loop_trace _ _ _ _ _ _ _ _ _ Hloop) as [outs Hpost].
        eapply run_looped; eauto using batched_positive.
    + unfold run in Hrun. rewrite Hall in Hrun. injection Hrun as <- <-.
      apply run_rejected; auto.
      intros Hd. apply is_list_of_documents_check in Hd as (items' & [= <-] & Hd).
      congruence.
  - injection Hrun as <- <-. apply run_rejected; auto.
    intros [docs Hd]. discriminate.
Qed.

End EveryExecution.

Section EveryExecutionFacts.

Variable World : Type.
Variable embeddings_create : CreateArgs -> World -> CallOutcome * World.

Local Abbreviation run := (run World embeddings_create).

Lemma run_store self arg st res st' :
  run self arg st = (res, st') →
  ∃ pairs, store st' = assign_embeddings pairs (store st).
Proof.
  intros Hrun. apply run_cases in Hrun.
  destruct Hrun as [_ _ ->| docs _ _ _ ->| docs groups outs res1 st1 _ _ _ _ Hpost Heq].
  - exists []. reflexivity.
  - exists []. reflexivity.
  - destruct Hpost as (_ & _ & Hstore & _).
    destruct res1 as [[e m]|x]; injection Heq as -> ->.
    + eexists. simpl. rewrite Hstore. reflexivity.
    + exists []. exact Hstore.
Qed.

(** Whatever its argument and however it ends, [run] changes nothing of
    any document but the embedding field: identifier, content and
    metadata are as before, so the texts that would be prepared from the
    documents after the run are those prepared before it. *)
Theorem run_changes_only_embeddings self arg st l :
  doc_id (store (run self arg st).2 l) = doc_id (store st l)
  ∧ doc_content (store (run self arg st).2 l) = doc_content (store st l)
  ∧ doc_meta (store (run self arg st).2 l) = doc_meta (store st l)
  ∧ ∀ docs, _prepare_texts_to_embed self (store (run self arg st).2) docs
            = _prepare_texts_to_embed self (store st) docs.
Proof.
  destruct (run self arg st) as [res st'] eqn:Hrun. simpl.
  destruct (run_store _ _ _ _ _ Hrun) as [pairs ->].
  destruct (assign_embeddings_fields pairs (store st) l) as (Hid & Hc & Hm).
  split; [exact Hid|]. split; [exact Hc|]. split; [exact Hm|].
  intros docs. apply prepare_loop_agree. intros l'. apply assign_embeddings_fields.
Qed.

Lemma run_new_calls self arg st res st' :
  run self arg st = (res, st') →
  new_calls st st' = []
  ∨ ∃ docs groups outs,
      (1 ≤ batch_size self)%Z
      ∧ batched (_prepare_texts_to_embed self (store st) docs) (batch_size self)
        = Returned groups
      ∧ new_calls st st' = zip (map (create_args self) groups) outs.
Proof.
  intros Hrun. apply run_cases in Hrun.
  destruct Hrun as [_ _ ->| docs _ _ _ ->| docs groups outs res1 st1 _ Hge Hb _ Hpost Heq].
  - left. apply new_calls_same.
  - left. apply new_calls_same.
  - right. exists docs, groups, outs. split; [exact Hge|]. split; [exact Hb|].
    destruct (loop_post_new_calls _ _ _ _ _ _ _ _ _ Hpost) as [Hnew _].
    destruct res1 as [[e m]|x]; injection Heq as -> ->; exact Hnew.
Qed.

(** Every request that [run] sends, in every execution, names the
    configured deployment as its model and carries the configured
    dimensions; it holds at least one text and at most [batch_size] texts;
    and no text in it contains a newline. *)
Theorem run_requests_well_formed self arg st :
  Forall (λ c : CreateArgs * CallOutcome,
            arg_model c.1 = azure_deployment self
            ∧ arg_dimensions c.1 = dimensions self
            ∧ 0 < length (arg_input c.1) ≤ Z.to_nat (batch_size self)
            ∧ Forall (λ text, newline ∉ String.list_ascii_of_string text) (arg_input c.1))
    (new_calls st (run self arg st).2).
Proof.
  destruct (run self arg st) as [res st'] eqn:Hrun. simpl.
  destruct (run_new_calls _ _ _ _ _ Hrun)
    as [->|(docs & groups & outs & Hge & Hb & ->)]; [constructor|].
  rewrite (batched_positive _ _ Hge) in Hb. injection Hb as Hgroups.
  assert (Hpos : 0 < Z.to_nat (batch_size self)) by lia.
  pose proof (batched_rounds_sizes
                (length (_prepare_texts_to_embed self (store st) docs))
                (Z.to_nat (batch_size self))
                (_prepare_texts_to_embed self (store st) docs) Hpos) as Hsizes.
  pose proof (batched_rounds_concat
                (length (_prepare_texts_to_embed self (store st) docs))
                (Z.to_nat (batch_size self))
                (_prepare_texts_to_embed self (store st) docs) Hpos (Nat.le_refl _))
    as Hconcat.
  rewrite Hgroups in Hsizes, Hconcat.
  apply Forall_forall. intros [args o] Hin.
  apply elem_of_zip_l in Hin. simpl in Hin.
  apply list_elem_of_fmap in Hin as (g & -> & Hg). simpl.
  rewrite Forall_forall in Hsizes.
  split; [reflexivity|]. split; [reflexivity|].
  split; [rewrite length_map; apply Hsizes, Hg|].
  apply Forall_forall. intros text Htext.
  apply list_elem_of_fmap in Htext as ([k t] & -> & Hkt). simpl.
  assert (Hentry : (k, t) ∈ _prepare_texts_to_embed self (store st) docs).
  { rewrite <- Hconcat. apply list_elem_of_In, in_concat.
    exists g. split; apply list_elem_of_In; assumption. }
  apply prepare_loop_entries in Hentry as [Hentry|(l & _ & Heq)]; [inversion Hentry|].
  injection Heq as _ ->. apply str_replace_no_newline.
Qed.

(** On the empty list, with a positive batch size, [run] returns at once:
    no documents, the initial metadata (empty model name, zero usage), and
    a state in which nothing was called and nothing was logged. *)
Theorem run_on_empty_list self st :
  (1 ≤ batch_size self)%Z →
  run self (ArgList []) st
  = (Returned {| out_documents := [];
                 out_meta := {| meta_model := "";
                                meta_usage := {| prompt_tokens := 0;
                                                 total_tokens := 0 |} |} |}, st).
Proof.
  intros Hge. unfold run. simpl. unfold _embed_batch.
  rewrite (batched_positive _ _ Hge). destruct st. reflexivity.
Qed.

End EveryExecutionFacts.

Lemma run_on_empty_list_witness :
  run Script scripted_create default_embedder (ArgList [])
    (scripted_state two_docs first_call_fails)
  = (Returned {| out_documents := [];
                 out_meta := {| meta_model := "";
                                meta_usage := {| prompt_tokens := 0;
                                                 total_tokens := 0 |} |} |},
     scripted_state two_docs first_call_fails).
Proof.
  apply (run_on_empty_list Script scripted_create default_embedder
           (scripted_state two_docs first_call_fails)).
  simpl. lia.
Defined.

(** ** Exceptions of the remote client other than [APIError] *)

Section OtherExceptions.

Variable World : Type.
Variable embeddings_create : CreateArgs -> World -> CallOutcome * World.

Local Abbreviation embed_loop := (embed_loop World embeddings_create).
Local Abbreviation run := (run World embeddings_create).

(** When the loop raises, the call that raised is the last one made, and
    every call before it returned or raised [APIError]. *)
Lemma embed_loop_raised self batches : ∀ embs meta st x st',
  embed_loop self batches embs meta st = (Raised x, st') →
  ∃ before d,
    x = ExternalError d
    ∧ length before < length batches
    ∧ Forall api_failure_or_success before
    ∧ calls st' = calls st ++ zip (map (create_args self) batches)
                               (before ++ [CallRaisesOther d])
    ∧ store st' = store st.
Proof.
  induction batches as [|batch rest IH]; intros embs meta st x st' Hrun; [discriminate|].
  destruct (embeddings_create (create_args self batch) (world st)) as [o w] eqn:Hcall.
  destruct o as [r|e|d].
  - rewrite (embed_loop_success _ _ _ _ _ _ _ _ _ _ Hcall) in Hrun.
    apply IH in Hrun as (before & d & -> & Hlen & Hall & Hcalls & Hstore).
    exists (CallReturns r :: before), d. simpl in *.
    split; [reflexivity|]. split; [lia|].
    split; [constructor; [intros d'; discriminate|exact Hall]|].
    split; [rewrite Hcalls, <- app_assoc; reflexivity|exact Hstore].
  - rewrite (embed_loop_api_error _ _ _ _ _ _ _ _ _ _ Hcall) in Hrun.
    apply IH in Hrun as (before & d & -> & Hlen & Hall & Hcalls & Hstore).
    exists (CallRaisesAPIError e :: before), d. simpl in *.
    split; [reflexivity|]. split; [lia|].
    split; [constructor; [intros d'; discriminate|exact Hall]|].
    split; [rewrite Hcalls, <- app_assoc; reflexivity|exact Hstore].
  - rewrite (embed_loop_other _ _ _ _ _ _ _ _ _ _ Hcall) in Hrun.
    injection Hrun as <- <-. exists [], d. simpl.
    rewrite zip_with_nil_r.
    split; [reflexivity|]. split; [lia|]. split; [constructor|].
    split; reflexivity.
Qed.

(** If a remote call of an execution raises an exception other than
    [APIError], [run] raises that exception: the call that raised is the
    last call made (the remaining batches are never sent), every call
    before it had returned or raised [APIError], and no document is
    changed, not even those whose batch had succeeded before. *)
Theorem run_propagates_other_exceptions self docs st res st' d :
  run self (ArgList (map ObjDocument docs)) st = (res, st') →
  CallRaisesOther d ∈ map snd (new_calls st st') →
  ∃ groups before,
    res = Raised (ExternalError d)
    ∧ batched (_prepare_texts_to_embed self (store st) docs) (batch_size self)
      = Returned groups
    ∧ length before < length groups
    ∧ Forall api_failure_or_success before
    ∧ new_calls st st'
      = zip (map (create_args self) groups) (before ++ [CallRaisesOther d])
    ∧ store st' = store st.
Proof.
  intros Hrun Hin. apply run_cases in Hrun.
  destruct Hrun as [_ _ ->| docs' _ _ _ ->| docs' groups outs res1 st1 Harg Hge Hb Hloop Hpost Heq].
  - rewrite new_calls_same in Hin. inversion Hin.
  - rewrite new_calls_same in Hin. inversion Hin.
  - apply (f_equal (λ a, match a with ArgList items => document_refs items | _ => [] end))
      in Harg.
    rewrite !document_refs_map in Harg. subst docs'.
    destruct res1 as [[e m]|x]; injection Heq as -> ->.
    + exfalso. destruct (loop_post_new_calls _ _ _ _ _ _ _ _ _ Hpost) as [Hnew Houts].
      destruct Hpost as (_ & _ & _ & _ & _ & Hall & _).
      assert (Hn : new_calls st (with_store World st1
                     (assign_embeddings (zip docs e) (store st1))) = new_calls st st1)
        by reflexivity.
      rewrite Hn, Houts in Hin. rewrite Forall_forall in Hall.
      exact (Hall _ Hin d eq_refl).
    + destruct (embed_loop_raised _ _ _ _ _ _ _ Hloop)
        as (before & d' & -> & Hlen & Hall & Hcalls & Hstore).
      assert (Hnew : new_calls st st1
                     = zip (map (create_args self) groups) (before ++ [CallRaisesOther d'])).
      { unfold new_calls. rewrite Hcalls, drop_app_length. reflexivity. }
      assert (d' = d) as ->.
      { rewrite Hnew, snd_zip in Hin by (rewrite length_map, length_app; simpl; lia).
        apply elem_of_app in Hin as [Hin|Hin].
        - rewrite Forall_forall in Hall. exfalso. exact (Hall _ Hin d eq_refl).
        - apply list_elem_of_singleton in Hin. congruence. }
      exists groups, before. auto 10.
Qed.

End OtherExceptions.

(** The first batch succeeds, the call for the second raises a
    connection error that is no [APIError]. *)
Definition second_call_breaks : Script :=
  [CallReturns one_vector_response; CallRaisesOther "connection reset"].

Definition second_call_breaks_run : PyResult RunOutput * State Script :=
  run Script scripted_create (with_batch_size default_embedder 1)
    (ArgList (map ObjDocument [0; 1])) (scripted_state two_docs second_call_breaks).

Lemma run_propagates_other_exceptions_witness :
  ∃ groups before,
    second_call_breaks_run.1 = Raised (ExternalError "connection reset")
    ∧ batched (_prepare_texts_to_embed (with_batch_size default_embedder 1)
                 (store (scripted_state two_docs second_call_breaks)) [0; 1])
        (batch_size (with_batch_size default_embedder 1))
      = Returned groups
    ∧ length before < length groups
    ∧ Forall api_failure_or_success before
    ∧ new_calls (scripted_state two_docs second_call_breaks) second_call_breaks_run.2
      = zip (map (create_args (with_batch_size default_embedder 1)) groups)
          (before ++ [CallRaisesOther "connection reset"])
    ∧ store second_call_breaks_run.2 = store (scripted_state two_docs second_call_breaks).
Proof.
  apply (run_propagates_other_exceptions Script scripted_create
           (with_batch_size default_embedder 1) [0; 1]
           (scripted_state two_docs second_call_breaks)
           second_call_breaks_run.1 second_call_breaks_run.2 "connection reset").
  - reflexivity.
  - vm_compute. right. left.
Defined.

(** ** Counting batches, vectors and failures *)

(** The number of batches is the number of entries divided by the batch
    size, rounded up. *)
Lemma batched_rounds_length {A} rounds n (items : list A) :
  0 < n → length items ≤ rounds →
  length (batched_rounds rounds n items) = (length items + n - 1) / n.
Proof.
  intros Hn. revert items.
  induction rounds as [|rounds IH]; intros items Hlen.
  - destruct items; simpl in *; [|lia]. symmetry. apply Nat.div_small. lia.
  - destruct items as [|x items].
    { rewrite batched_rounds_nil. simpl. symmetry. apply Nat.div_small. lia. }
    rewrite batched_rounds_cons by assumption.
    change (length (?g :: ?gs)) with (S (length gs)).
    rewrite IH by (rewrite length_drop; simpl in *; lia).
    rewrite length_drop. simpl length in *.
    set (m := length items) in *.
    destruct (decide (S m ≤ n)) as [Hle|Hgt].
    + replace (S m - n + n - 1) with (n - 1) by lia.
      rewrite (Nat.div_small (n - 1) n) by lia.
      apply (Nat.div_unique _ _ 1 m); lia.
    + replace (S m + n - 1) with ((S m - n + n - 1) + 1 * n) by lia.
      rewrite Nat.div_add by lia. lia.
Qed.

(** The sizes of the batches whose call raised [APIError], added up. *)
Definition failed_texts (groups : list (list (string * string))) (outs : list CallOutcome)
    : nat :=
  sum_list (omap (λ go : list (string * string) * CallOutcome,
                    match go.2 with
                    | CallRaisesAPIError _ => Some (length go.1)
                    | _ => None
                    end) (zip groups outs)).

(** A call that returns gives one vector per text sent. *)
Definition one_vector_per_text (c : CreateArgs * CallOutcome) : Prop :=
  ∀ r, c.2 = CallReturns r → length (resp_data r) = length (arg_input c.1).

Lemma vectors_and_failed_texts self groups : ∀ outs,
  length outs = length groups →
  Forall api_failure_or_success outs →
  Forall one_vector_per_text (zip (map (create_args self) groups) outs) →
  length (returned_vectors outs) + failed_texts groups outs = length (concat groups).
Proof.
  induction groups as [|g groups IH]; intros [|o outs] Hlen Hall Hone; simpl in *; try lia.
  - reflexivity.
  - apply Forall_cons in Hall as [Ho Hall]. apply Forall_cons in Hone as [Hr Hone].
    specialize (IH outs ltac:(lia) Hall Hone).
    unfold returned_vectors, failed_texts in *. rewrite length_app.
    destruct o as [r|e|d]; simpl in *;
      change (list_omap _ _ ?f ?l) with (omap f l).
    + rewrite length_app. specialize (Hr r eq_refl).
      simpl in Hr. rewrite length_map in Hr. lia.
    + lia.
    + exfalso. exact (Ho d eq_refl).
Qed.

Lemma all_failed_no_vectors outs :
  Forall (λ o, ∃ e, o = CallRaisesAPIError e) outs →
  responses outs = [] ∧ returned_vectors outs = []
  ∧ Forall api_failure_or_success outs.
Proof.
  induction outs as [|o outs IH]; intros Hall; [repeat split; constructor|].
  apply Forall_cons in Hall as [[e ->] Hall].
  destruct (IH Hall) as (Hr & Hv & Hok).
  unfold returned_vectors, responses in *. simpl.
  change (list_omap _ _ ?f ?l) with (omap f l). rewrite Hr. simpl.
  repeat split. constructor; [intros d; discriminate|exact Hok].
Qed.

Lemma omap_failure_record_length groups : ∀ outs,
  length outs = length groups →
  Forall (λ o, ∃ e, o = CallRaisesAPIError e) outs →
  length (omap failure_record (zip groups outs)) = length groups.
Proof.
  induction groups as [|g groups IH]; intros [|o outs] Hlen Hall; simpl in *; try lia.
  apply Forall_cons in Hall as [[e ->] Hall]. simpl.
  change (list_omap _ _ ?f ?l) with (omap f l).
  rewrite IH; [reflexivity|lia|exact Hall].
Qed.

Section Counting.

Variable World : Type.
Variable embeddings_create : CreateArgs -> World -> CallOutcome * World.

Local Abbreviation run := (run World embeddings_create).

(** With a positive batch size, an execution in which no call raises an
    exception other than [APIError] makes as many remote calls as the
    number of prepared texts divided by the batch size, rounded up (none
    for no documents), however many of them fail. *)
Theorem run_number_of_calls self docs st res st' :
  (1 ≤ batch_size self)%Z →
  run self (ArgList (map ObjDocument docs)) st = (res, st') →
  Forall api_failure_or_success (map snd (new_calls st st')) →
  length (new_calls st st')
  = (length (_prepare_texts_to_embed self (store st) docs) + Z.to_nat (batch_size self) - 1)
    / Z.to_nat (batch_size self).
Proof.
  intros Hge Hrun Hall.
  destruct (run_documents _ _ _ _ _ _ _ Hge Hrun Hall)
    as (groups & outs & Hb & Hnew & Hlen & _).
  rewrite (batched_positive _ _ Hge) in Hb. injection Hb as <-.
  rewrite Hnew, length_zip_with, length_map, Hlen, Nat.min_id.
  apply batched_rounds_length; lia.
Qed.

(** If every remote call of an execution raises [APIError], [run] still
    returns the documents: none of them is changed, the metadata is the
    initial one (empty model name, zero usage), and the log has grown by
    one record per batch. *)
Theorem run_when_every_batch_fails self docs st res st' :
  (1 ≤ batch_size self)%Z →
  run self (ArgList (map ObjDocument docs)) st = (res, st') →
  Forall (λ o, ∃ e, o = CallRaisesAPIError e) (map snd (new_calls st st')) →
  res = Returned {| out_documents := docs; out_meta := initial_meta |}
  ∧ store st' = store st
  ∧ length (log st') = length (log st) + length (new_calls st st').
Proof.
  intros Hge Hrun Hfail.
  destruct (all_failed_no_vectors _ Hfail) as (Hresp & Hvec & Hok).
  destruct (run_documents _ _ _ _ _ _ _ Hge Hrun Hok)
    as (groups & outs & Hb & Hnew & Hlen & Hres & Hstore & Hlog).
  assert (Houts : map snd (new_calls st st') = outs).
  { rewrite Hnew. apply snd_zip. rewrite length_map. lia. }
  rewrite Houts in Hresp, Hvec, Hfail.
  rewrite Hresp in Hres. rewrite Hvec, zip_with_nil_r in Hstore.
  split; [exact Hres|]. split; [exact Hstore|].
  rewrite Hlog, length_app, omap_failure_record_length by assumption.
  rewrite Hnew, length_zip_with, length_map, Hlen, Nat.min_id. reflexivity.
Qed.

(** What [run] does when some batches fail.  For documents with pairwise
    distinct identifiers and a positive batch size, in an execution where
    every call returns one vector per text or raises [APIError]: the
    vectors returned and the texts of the failed batches add up to the
    number of documents; the vectors go, in order, to the first documents
    of the list; and the last documents, as many as there were texts in
    failed batches, keep their embedding field as it was. *)
Theorem run_with_failed_batches self docs st res st' :
  NoDup (ids_of (store st) docs) →
  (1 ≤ batch_size self)%Z →
  run self (ArgList (map ObjDocument docs)) st = (res, st') →
  Forall api_failure_or_success (map snd (new_calls st st')) →
  Forall one_vector_per_text (new_calls st st') →
  ∃ groups,
    batched (_prepare_texts_to_embed self (store st) docs) (batch_size self) = Returned groups
    ∧ length (returned_vectors (map snd (new_calls st st')))
      + failed_texts groups (map snd (new_calls st st')) = length docs
    ∧ (∀ i l v, docs !! i = Some l →
         returned_vectors (map snd (new_calls st st')) !! i = Some v →
         store st' l = set_embedding (store st l) v)
    ∧ (∀ i l, docs !! i = Some l →
         length (returned_vectors (map snd (new_calls st st'))) ≤ i →
         store st' l = store st l).
Proof.
  intros Hids Hge Hrun Hall Hone.
  destruct (run_documents _ _ _ _ _ _ _ Hge Hrun Hall)
    as (groups & outs & Hb & Hnew & Hlen & Hres & Hstore & Hlog).
  assert (Houts : map snd (new_calls st st') = outs).
  { rewrite Hnew. apply snd_zip. rewrite length_map. lia. }
  rewrite Houts in *. rewrite Hnew in Hone.
  assert (Hnd : NoDup docs) by (eapply NoDup_fmap_1, Hids).
  exists groups. split; [exact Hb|].
  rewrite (batched_positive _ _ Hge) in Hb. injection Hb as Hgroups.
  split.
  { rewrite (vectors_and_failed_texts self groups outs Hlen Hall Hone).
    rewrite <- Hgroups, batched_rounds_concat by lia.
    rewrite prepare_distinct by exact Hids. apply length_map. }
  split.
  - intros i l v Hl Hv. rewrite Hstore.
    eapply assign_embeddings_lookup; eauto.
  - intros i l Hl Hi. rewrite Hstore. apply assign_embeddings_other.
    rewrite zip_docs_fst. intros Hin.
    apply elem_of_take in Hin as (j & Hj & Hlt).
    assert (i = j) by (eapply NoDup_lookup; eauto). lia.
Qed.

End Counting.

Lemma run_number_of_calls_witness :
  length (new_calls (echo_state five_docs) five_docs_run.2)
  = (length (_prepare_texts_to_embed (with_batch_size default_embedder 2)
               (store (echo_state five_docs)) [0; 1; 2; 3; 4])
     + Z.to_nat (batch_size (with_batch_size default_embedder 2)) - 1)
    / Z.to_nat (batch_size (with_batch_size default_embedder 2)).
Proof.
  apply (run_number_of_calls unit echo_create (with_batch_size default_embedder 2)
           [0; 1; 2; 3; 4] (echo_state five_docs) five_docs_run.1 five_docs_run.2).
  - simpl. lia.
  - reflexivity.
  - vm_compute. repeat constructor; intros d; discriminate.
Defined.

Definition every_call_fails : Script :=
  [CallRaisesAPIError "rate limit"; CallRaisesAPIError "rate limit"].

Definition every_call_fails_run : PyResult RunOutput * State Script :=
  run Script scripted_create (with_batch_size default_embedder 1)
    (ArgList (map ObjDocument [0; 1])) (scripted_state two_docs every_call_fails).

Lemma run_when_every_batch_fails_witness :
  every_call_fails_run.1 = Returned {| out_documents := [0; 1]; out_meta := initial_meta |}
  ∧ store every_call_fails_run.2 = store (scripted_state two_docs every_call_fails)
  ∧ length (log every_call_fails_run.2)
    = length (log (scripted_state two_docs every_call_fails))
      + length (new_calls (scripted_state two_docs every_call_fails) every_call_fails_run.2).
Proof.
  apply (run_when_every_batch_fails Script scripted_create
           (with_batch_size default_embedder 1) [0; 1]
           (scripted_state two_docs every_call_fails)
           every_call_fails_run.1 every_call_fails_run.2).
  - simpl. lia.
  - reflexivity.
  - vm_compute. repeat constructor; eexists; reflexivity.
Defined.

Lemma run_with_failed_batches_witness :
  ∃ groups,
    batched (_prepare_texts_to_embed (with_batch_size default_embedder 1)
               (store (scripted_state two_docs first_call_fails)) [0; 1])
      (batch_size (with_batch_size default_embedder 1)) = Returned groups
    ∧ length (returned_vectors
                (map snd (new_calls (scripted_state two_docs first_call_fails)
                            first_call_fails_run.2)))
      + failed_texts groups
          (map snd (new_calls (scripted_state two_docs first_call_fails)
                      first_call_fails_run.2))
      = length [0; 1]
    ∧ (∀ i l v, [0; 1] !! i = Some l →
         returned_vectors
           (map snd (new_calls (scripted_state two_docs first_call_fails)
                       first_call_fails_run.2)) !! i = Some v →
         store first_call_fails_run.2 l
         = set_embedding (store (scripted_state two_docs first_call_fails) l) v)
    ∧ (∀ i l, [0; 1] !! i = Some l →
         length (returned_vectors
                   (map snd (new_calls (scripted_state two_docs first_call_fails)
                               first_call_fails_run.2))) ≤ i →
         store first_call_fails_run.2 l
         = store (scripted_state two_docs first_call_fails) l).
Proof.
  apply (run_with_failed_batches Script scripted_create
           (with_batch_size default_embedder 1) [0; 1]
           (scripted_state two_docs first_call_fails)
           first_call_fails_run.1 first_call_fails_run.2).
  - apply (bool_decide_unpack _). vm_compute. reflexivity.
  - simpl. lia.
  - reflexivity.
  - vm_compute. repeat constructor; intros d; discriminate.
  - vm_compute. repeat constructor; intros r [= <-]; reflexivity.
Defined.

(** ** The metadata returned *)

(** The first non-empty model name among the responses, or the empty
    string. *)
Definition first_named_model (rs : list CreateEmbeddingResponse) : string :=
  default ""%string
    (head (List.filter (λ m, negb (String.eqb m "")) (map resp_model rs))).

(** The responses whose usage ends up in the metadata: those from the
    first response that names its model on, or, when none names a model,
    the last response alone. *)
Fixpoint counted_responses (rs : list CreateEmbeddingResponse)
    : list CreateEmbeddingResponse :=
  match rs with
  | [] => []
  | r :: rest =>
      if String.eqb (resp_model r) "" then
        match rest with
        | [] => [r]
        | _ => counted_responses rest
        end
      else r :: rest
  end.

Lemma update_meta_unnamed meta r :
  meta_model meta = ""%string →
  update_meta meta r = {| meta_model := resp_model r; meta_usage := resp_usage r |}.
Proof. intros H. unfold update_meta. rewrite H. reflexivity. Qed.

Lemma fold_update_meta_model rs : ∀ meta,
  meta_model (fold_left update_meta rs meta)
  = if String.eqb (meta_model meta) "" then first_named_model rs else meta_model meta.
Proof.
  induction rs as [|r rs IH]; intros meta; simpl.
  - destruct (String.eqb_spec (meta_model meta) ""); [|reflexivity].
    unfold first_named_model. simpl. congruence.
  - rewrite IH. unfold update_meta, first_named_model. simpl.
    destruct (String.eqb_spec (meta_model meta) "") as [Hm|Hm]; simpl.
    + destruct (String.eqb_spec (resp_model r) ""); reflexivity.
    + destruct (String.eqb_spec (meta_model meta) ""); congruence.
Qed.

Lemma fold_update_meta_counted rs : ∀ meta,
  meta_model meta = ""%string → rs ≠ [] →
  prompt_tokens (meta_usage (fold_left update_meta rs meta))
  = sum_prompt_tokens (counted_responses rs)
  ∧ total_tokens (meta_usage (fold_left update_meta rs meta))
    = sum_total_tokens (counted_responses rs).
Proof.
  induction rs as [|r rs IH]; intros meta Hm Hne; [congruence|].
  simpl. rewrite (update_meta_unnamed _ _ Hm).
  destruct (String.eqb_spec (resp_model r) "") as [Hr|Hr].
  - destruct rs as [|r' rs'].
    + unfold sum_prompt_tokens, sum_total_tokens. simpl. lia.
    + apply IH; [exact Hr|discriminate].
  - destruct (fold_update_meta_adds rs
                {| meta_model := resp_model r; meta_usage := resp_usage r |} Hr)
      as [-> ->].
    split; reflexivity.
Qed.

Section Metadata.

Variable World : Type.
Variable embeddings_create : CreateArgs -> World -> CallOutcome * World.

Local Abbreviation run := (run World embeddings_create).

(** The metadata of a run that returns.  The model name is the first
    non-empty model name among the responses of the successful calls (the
    empty string when there is none).  The usage counters are the sums
    over the responses from that first named response on; while no
    response has named its model, each response replaces the counters, so
    that with no named response at all they are those of the last
    response, and zero when no call succeeded. *)
Theorem run_metadata self arg st out st' :
  run self arg st = (Returned out, st') →
  meta_model (out_meta out) = first_named_model (responses (map snd (new_calls st st')))
  ∧ prompt_tokens (meta_usage (out_meta out))
    = sum_prompt_tokens (counted_responses (responses (map snd (new_calls st st'))))
  ∧ total_tokens (meta_usage (out_meta out))
    = sum_total_tokens (counted_responses (responses (map snd (new_calls st st')))).
Proof.
  intros Hrun. apply run_cases in Hrun.
  destruct Hrun as [_ H _| docs _ _ H _| docs groups outs res1 st1 _ _ _ _ Hpost Heq];
    try discriminate.
  destruct (loop_post_new_calls _ _ _ _ _ _ _ _ _ Hpost) as [_ Houts].
  destruct res1 as [[e m]|x]; [|discriminate].
  injection Heq as -> ->. simpl.
  change (new_calls st (with_store World st1 _)) with (new_calls st st1).
  rewrite Houts.
  destruct Hpost as (_ & _ & _ & _ & _ & _ & _ & ->).
  split; [apply (fold_update_meta_model _ initial_meta)|].
  destruct (responses outs) as [|r rs] eqn:Hrs; [split; reflexivity|].
  apply fold_update_meta_counted; [reflexivity|discriminate].
Qed.

End Metadata.

Lemma run_metadata_witness :
  meta_model (out_meta {| out_documents := [0; 1];
                          out_meta := {| meta_model := "";
                                         meta_usage := {| prompt_tokens := 4;
                                                          total_tokens := 4 |} |} |})
  = first_named_model
      (responses (map snd (new_calls
         (scripted_state two_docs [CallReturns (unnamed_response 3);
                                   CallReturns (unnamed_response 4)]) unnamed_run.2)))
  ∧ prompt_tokens (meta_usage (out_meta {| out_documents := [0; 1];
                          out_meta := {| meta_model := "";
                                         meta_usage := {| prompt_tokens := 4;
                                                          total_tokens := 4 |} |} |}))
    = sum_prompt_tokens (counted_responses
        (responses (map snd (new_calls
           (scripted_state two_docs [CallReturns (unnamed_response 3);
                                     CallReturns (unnamed_response 4)]) unnamed_run.2))))
  ∧ total_tokens (meta_usage (out_meta {| out_documents := [0; 1];
                          out_meta := {| meta_model := "";
                                         meta_usage := {| prompt_tokens := 4;
                                                          total_tokens := 4 |} |} |}))
    = sum_total_tokens (counted_responses
        (responses (map snd (new_calls
           (scripted_state two_docs [CallReturns (unnamed_response 3);
                                     CallReturns (unnamed_response 4)]) unnamed_run.2)))).
Proof.
  apply (run_metadata Script scripted_create (with_batch_size default_embedder 1)
           (ArgList (map ObjDocument [0; 1]))
           (scripted_state two_docs [CallReturns (unnamed_response 3);
                                     CallReturns (unnamed_response 4)])).
  reflexivity.
Defined.

(** ** What the constructor checks and what it takes from the environment *)

Local Open Scope string_scope.

Lemma append_empty_r (s : string) : s ++ "" = s.
Proof.
  induction s as [|c s IH]; [reflexivity|].
  change (String c (s ++ "") = String c s). f_equal. exact IH.
Qed.

Section ConstructorFacts.

Variables Callable Client HttpClient World : Type.
Variable py_float : string -> PyResult float.
Variable py_int : string -> PyResult Z.
Variable resolve_value : Secret -> Environ -> PyResult (option string).
Variable httpx_Client : gmap string PyValue -> World -> PyResult HttpClient * World.
Variable AzureOpenAI : ClientArgs Callable HttpClient -> World -> PyResult Client * World.

Local Abbreviation init := (__init__ py_float py_int resolve_value httpx_Client AzureOpenAI).

(** An endpoint that is the empty string counts as no endpoint, in the
    argument and in the environment alike: when each of the two is absent
    or empty, [__init__] raises the endpoint error and the world is as it
    was. *)
Theorem empty_endpoint_counts_as_missing (args : InitArgs Callable) environ w :
  init_azure_endpoint args = None ∨ init_azure_endpoint args = Some "" →
  environ !! "AZURE_OPENAI_ENDPOINT" = None ∨ environ !! "AZURE_OPENAI_ENDPOINT" = Some "" →
  init args environ w = (Raised endpoint_error, w).
Proof.
  intros Harg Henv. unfold __init__.
  destruct Harg as [-> | ->], Henv as [-> | ->]; reflexivity.
Qed.

(** Arguments win over the environment.  In a component that [__init__]
    returned, the endpoint is the argument when that is a non-empty string
    and the value of AZURE_OPENAI_ENDPOINT otherwise; the timeout and the
    retry count are the arguments when given, and only otherwise what
    [float] and [int] make of OPENAI_TIMEOUT (default "30.0") and
    OPENAI_MAX_RETRIES (default "5"). *)
Theorem arguments_override_environment (args : InitArgs Callable) environ w c w' :
  init args environ w = (Returned c, w') →
  (∀ e, init_azure_endpoint args = Some e → e ≠ "" →
        self_azure_endpoint (attributes c) = e)
  ∧ (init_azure_endpoint args = None ∨ init_azure_endpoint args = Some "" →
     environ !! "AZURE_OPENAI_ENDPOINT" = Some (self_azure_endpoint (attributes c)))
  ∧ (∀ t, init_timeout args = Some t → self_timeout (attributes c) = t)
  ∧ (init_timeout args = None →
     py_float (default "30.0" (environ !! "OPENAI_TIMEOUT"))
     = Returned (self_timeout (attributes c)))
  ∧ (∀ n, init_max_retries args = Some n → self_max_retries (attributes c) = n)
  ∧ (init_max_retries args = None →
     py_int (default "5" (environ !! "OPENAI_MAX_RETRIES"))
     = Returned (self_max_retries (attributes c))).
Proof.
  intros Hinit.
  apply init_returns_inv in Hinit
    as (endpoint & timeout & max_retries & Hep & Ht & Hr & Hne & _ & ->).
  unfold timeout_of in Ht. unfold max_retries_of in Hr. simpl.
  split.
  { intros e He Hnonempty. rewrite He in Hep. simpl in Hep.
    destruct (String.eqb_spec e ""); congruence. }
  split.
  { intros [He|He]; rewrite He in Hep; exact Hep. }
  split; [intros t Hsome; rewrite Hsome in Ht; congruence|].
  split; [intros Hnone; rewrite Hnone in Ht; exact Ht|].
  split; [intros n Hsome; rewrite Hsome in Hr; congruence|].
  intros Hnone. rewrite Hnone in Hr. exact Hr.
Qed.

(** A timeout or a retry count that has to come from the environment and
    cannot be read as a number makes [__init__] raise what [float] or
    [int] raises, after the endpoint and credential checks and before any
    client is made (the world is as it was). *)
Theorem unreadable_environment_number_fails_construction
    (args : InitArgs Callable) environ w endpoint e :
  str_or (init_azure_endpoint args) (environ !! "AZURE_OPENAI_ENDPOINT") = Some endpoint →
  endpoint ≠ "" →
  ¬ (init_api_key args = None ∧ init_azure_ad_token args = None) →
  (init_timeout args = None →
   py_float (default "30.0" (environ !! "OPENAI_TIMEOUT")) = Raised e →
   init args environ w = (Raised e, w))
  ∧ (∀ t, timeout_of py_float args environ = Returned t →
          init_max_retries args = None →
          py_int (default "5" (environ !! "OPENAI_MAX_RETRIES")) = Raised e →
          init args environ w = (Raised e, w)).
Proof.
  intros Hep Hne Hcred.
  rewrite (init_credentials_checked _ _ _ _ _ _ _ _ _ _ _ _ _ Hep Hne).
  rewrite bool_decide_eq_false_2 by exact Hcred.
  unfold bind, pure_call, max_retries_of. split.
  - intros Hnone Hfloat. unfold timeout_of. rewrite Hnone, Hfloat. reflexivity.
  - intros t Ht Hnone Hint. rewrite Ht, Hnone, Hint. reflexivity.
Qed.

(** Transport options that are true but no dictionary make [__init__]
    raise a [TypeError], once the checks have passed and the timeout, the
    retry count and the secrets have resolved, and before the Azure client
    is made (the world is as it was). *)
Theorem malformed_http_client_kwargs_fail_construction
    (args : InitArgs Callable) environ w endpoint timeout max_retries :
  str_or (init_azure_endpoint args) (environ !! "AZURE_OPENAI_ENDPOINT") = Some endpoint →
  endpoint ≠ "" →
  ¬ (init_api_key args = None ∧ init_azure_ad_token args = None) →
  timeout_of py_float args environ = Returned timeout →
  max_retries_of py_int args environ = Returned max_retries →
  (∀ s, init_api_key args = Some s ∨ init_azure_ad_token args = Some s →
        ∃ v, resolve_value s environ = Returned v) →
  init_http_client_kwargs args = Some (KwOther true) →
  init args environ w = (Raised kwargs_error, w).
Proof.
  intros Hep Hne Hcred Ht Hr Hsecrets Hkw.
  rewrite (init_credentials_checked _ _ _ _ _ _ _ _ _ _ _ _ _ Hep Hne).
  rewrite bool_decide_eq_false_2 by exact Hcred.
  unfold bind at 1, pure_call. rewrite Ht.
  unfold bind at 1. rewrite Hr.
  unfold bind at 1, create_client, resolve_optional; simpl.
  assert (Hres : ∀ k : option Secret,
            (k = init_api_key args ∨ k = init_azure_ad_token args) →
            ∃ v, match k with
                 | Some s => pure_call (resolve_value s environ)
                 | None => ret None
                 end w = (Returned v, w)).
  { intros [s|] Hk; [|eexists; reflexivity].
    destruct (Hsecrets s) as [v Hv]; [destruct Hk as [<-|<-]; auto|].
    exists v. unfold pure_call. rewrite Hv. reflexivity. }
  destruct (Hres (init_api_key args)) as [key Hkey]; [auto|].
  destruct (Hres (init_azure_ad_token args)) as [token Htoken]; [auto|].
  unfold bind at 1. unfold pure_call in *. rewrite Hkey.
  unfold bind at 1. rewrite Htoken.
  unfold bind, _init_http_client. simpl. rewrite Hkw. reflexivity.
Qed.

(** [__init__] does not check the batch size: a component made with a
    batch size below 1 exists, and every [run] of it on a list of
    documents, the empty one included, raises the [ValueError] of the
    batching, with no remote call made. *)
Theorem batch_size_is_checked_only_by_run (args : InitArgs Callable) environ w c w'
    (RunWorld : Type)
    (embeddings_create : CreateArgs → RunWorld → CallOutcome * RunWorld)
    docs (st : State RunWorld) :
  init args environ w = (Returned c, w') →
  (init_batch_size args < 1)%Z →
  run RunWorld embeddings_create (embedder_of (attributes c))
    (ArgList (map ObjDocument docs)) st
  = (Raised (ValueError "n must be at least one"), st).
Proof.
  intros Hinit Hlt.
  apply init_returns_inv in Hinit as (endpoint & timeout & max_retries & _ & _ & _ & _ & _ & Ha).
  apply run_batch_size_below_one. rewrite Ha. exact Hlt.
Qed.

(** With empty prefix and suffix and no metadata fields to embed, as in a
    component made with the defaults, the text prepared for a document is
    its content with every newline replaced by a space, and the empty
    string for a document without content. *)
Theorem default_configuration_embeds_content (args : InitArgs Callable) environ w c w' doc :
  init args environ w = (Returned c, w') →
  init_prefix args = "" →
  init_suffix args = "" →
  init_meta_fields_to_embed args = None ∨ init_meta_fields_to_embed args = Some [] →
  text_to_embed (embedder_of (attributes c)) doc
  = str_replace newline space (default "" (doc_content doc)).
Proof.
  intros Hinit Hp Hs Hfields.
  apply init_returns_inv in Hinit as (endpoint & timeout & max_retries & _ & _ & _ & _ & _ & Ha).
  unfold text_to_embed. rewrite Ha. simpl. rewrite Hp, Hs.
  assert (Hnone : default [] (init_meta_fields_to_embed args) = [])
    by (destruct Hfields as [-> | ->]; reflexivity).
  rewrite Hnone. simpl. rewrite content_or_empty_default.
  rewrite append_empty_r. reflexivity.
Qed.

End ConstructorFacts.

(** The component that the example world makes from [args] when the
    endpoint comes out as [endpoint] and the numbers as given, with the
    API key resolved to [key]. *)
Definition demo_component (args : InitArgs string) (endpoint : string)
    (timeout : float) (max_retries : Z) (key : option string)
    : Component string (ClientArgs string unit) :=
  {| attributes := set_attributes args endpoint timeout max_retries;
     _client :=
       {| client_api_version := init_api_version args;
          client_azure_endpoint := endpoint;
          client_azure_deployment := init_azure_deployment args;
          client_azure_ad_token_provider := init_azure_ad_token_provider args;
          client_api_key := key;
          client_azure_ad_token := None;
          client_organization := init_organization args;
          client_timeout := timeout;
          client_max_retries := max_retries;
          client_default_headers := default ∅ (init_default_headers args);
          client_http_client := None |} |}.

(** The defaults with the given endpoint, timeout, retry count, batch
    size and transport options. *)
Definition args_over (endpoint : option string) (timeout : option float)
    (max_retries : option Z) (batch : Z) (kwargs : option KwargsValue) : InitArgs string :=
  {| init_azure_endpoint := endpoint;
     init_api_version := init_api_version default_args;
     init_azure_deployment := init_azure_deployment default_args;
     init_dimensions := init_dimensions default_args;
     init_api_key := init_api_key default_args;
     init_azure_ad_token := init_azure_ad_token default_args;
     init_organization := init_organization default_args;
     init_prefix := init_prefix default_args;
     init_suffix := init_suffix default_args;
     init_batch_size := batch;
     init_progress_bar := init_progress_bar default_args;
     init_meta_fields_to_embed := init_meta_fields_to_embed default_args;
     init_embedding_separator := init_embedding_separator default_args;
     init_timeout := timeout;
     init_max_retries := max_retries;
     init_default_headers := init_default_headers default_args;
     init_azure_ad_token_provider := init_azure_ad_token_provider default_args;
     init_http_client_kwargs := kwargs |}.

Definition explicit_args : InitArgs string :=
  args_over (Some "https://explicit.example/") (Some (float_of_nat 10)) (Some 2%Z) 32 None.

Lemma empty_endpoint_counts_as_missing_witness :
  demo_init (args_over (Some "") None None 32 None)
    {[ "AZURE_OPENAI_ENDPOINT" := "" ]} 0
  = (Raised endpoint_error, 0).
Proof.
  apply (empty_endpoint_counts_as_missing string (ClientArgs string unit) unit nat
           demo_float demo_int demo_resolve_value demo_httpx_Client demo_AzureOpenAI
           (args_over (Some "") None None 32 None) {[ "AZURE_OPENAI_ENDPOINT" := "" ]} 0).
  - right. reflexivity.
  - right. reflexivity.
Defined.

Lemma arguments_override_environment_witness :
  bad_timeout_environ !! "AZURE_OPENAI_ENDPOINT" = Some demo_endpoint
  ∧ bad_timeout_environ !! "OPENAI_TIMEOUT" = Some "soon"
  ∧ self_azure_endpoint
      (attributes (demo_component explicit_args "https://explicit.example/"
                     (float_of_nat 10) 2 (Some "fake-api-key")))
    = "https://explicit.example/"
  ∧ self_timeout
      (attributes (demo_component explicit_args "https://explicit.example/"
                     (float_of_nat 10) 2 (Some "fake-api-key")))
    = float_of_nat 10
  ∧ self_max_retries
      (attributes (demo_component explicit_args "https://explicit.example/"
                     (float_of_nat 10) 2 (Some "fake-api-key")))
    = 2%Z.
Proof.
  destruct (arguments_override_environment string (ClientArgs string unit) unit nat
              demo_float demo_int demo_resolve_value demo_httpx_Client demo_AzureOpenAI
              explicit_args bad_timeout_environ 0
              (demo_component explicit_args "https://explicit.example/"
                 (float_of_nat 10) 2 (Some "fake-api-key")) 1)
    as (Hendpoint & _ & Htimeout & _ & Hretries & _).
  { reflexivity. }
  split; [reflexivity|]. split; [reflexivity|].
  split; [apply Hendpoint; [reflexivity|discriminate]|].
  split; [apply Htimeout; reflexivity|apply Hretries; reflexivity].
Defined.

Lemma unreadable_environment_number_fails_construction_witness :
  demo_init default_args bad_timeout_environ 0
  = (Raised (ValueError "could not convert string to float"), 0).
Proof.
  apply (unreadable_environment_number_fails_construction
           string (ClientArgs string unit) unit nat
           demo_float demo_int demo_resolve_value demo_httpx_Client demo_AzureOpenAI
           default_args bad_timeout_environ 0 demo_endpoint
           (ValueError "could not convert string to float")).
  - reflexivity.
  - discriminate.
  - intros [Hkey _]. discriminate.
  - reflexivity.
  - reflexivity.
Defined.

Lemma malformed_http_client_kwargs_fail_construction_witness :
  demo_init (args_over None None None 32 (Some (KwOther true))) azure_environ 0
  = (Raised kwargs_error, 0).
Proof.
  apply (malformed_http_client_kwargs_fail_construction
           string (ClientArgs string unit) unit nat
           demo_float demo_int demo_resolve_value demo_httpx_Client demo_AzureOpenAI
           (args_over None None None 32 (Some (KwOther true))) azure_environ 0
           demo_endpoint (float_of_nat 30) 5).
  - reflexivity.
  - discriminate.
  - intros [Hkey _]. discriminate.
  - reflexivity.
  - reflexivity.
  - intros s [[= <-]|[= <-]]; eexists; reflexivity.
  - reflexivity.
Defined.

Lemma batch_size_is_checked_only_by_run_witness :
  run Script scripted_create
    (embedder_of (attributes (demo_component (args_over None None None 0 None)
                                demo_endpoint (float_of_nat 30) 5 (Some "fake-api-key"))))
    (ArgList (map ObjDocument [0; 1])) (scripted_state two_docs first_call_fails)
  = (Raised (ValueError "n must be at least one"), scripted_state two_docs first_call_fails).
Proof.
  apply (batch_size_is_checked_only_by_run string (ClientArgs string unit) unit nat
           demo_float demo_int demo_resolve_value demo_httpx_Client demo_AzureOpenAI
           (args_over None None None 0 None) azure_environ 0
           (demo_component (args_over None None None 0 None)
              demo_endpoint (float_of_nat 30) 5 (Some "fake-api-key")) 1).
  - reflexivity.
  - simpl. lia.
Defined.

Lemma default_configuration_embeds_content_witness :
  text_to_embed
    (embedder_of (attributes (demo_component default_args demo_endpoint
                                (float_of_nat 30) 5 (Some "fake-api-key"))))
    pizza_doc_with_topic
  = str_replace newline space (default "" (doc_content pizza_doc_with_topic)).
Proof.
  apply (default_configuration_embeds_content string (ClientArgs string unit) unit nat
           demo_float demo_int demo_resolve_value demo_httpx_Client demo_AzureOpenAI
           default_args azure_environ 0
           (demo_component default_args demo_endpoint (float_of_nat 30) 5
              (Some "fake-api-key")) 1).
  - reflexivity.
  - reflexivity.
  - reflexivity.
  - left. reflexivity.
Defined.

(** ** Reconstruction from the serialized form *)

Section ReconstructionFacts.

Variables Callable Client HttpClient World : Type.
Variable py_float : string -> PyResult float.
Variable py_int : string -> PyResult Z.
Variable resolve_value : Secret -> Environ -> PyResult (option string).
Variable httpx_Client : gmap string PyValue -> World -> PyResult HttpClient * World.
Variable AzureOpenAI : ClientArgs Callable HttpClient -> World -> PyResult Client * World.
Variable SecretDescriptor : Type.
Variable Secret_to_dict : Secret -> SecretDescriptor.
Variable Secret_from_dict : SecretDescriptor -> PyResult Secret.
Variable serialize_callable : TokenProvider Callable -> PyResult string.
Variable deserialize_callable : string -> PyResult Callable.

Local Abbreviation init := (__init__ py_float py_int resolve_value httpx_Client AzureOpenAI).
Local Abbreviation new_client := (create_client resolve_value httpx_Client AzureOpenAI).
Local Abbreviation serialize := (@to_dict Callable Client _ Secret_to_dict serialize_callable).
Local Abbreviation deserialize :=
  (from_dict py_float py_int resolve_value httpx_Client AzureOpenAI
     Secret_from_dict deserialize_callable).

(** [from_dict] resolves the two secret descriptors and then the name of
    the token provider before it calls the constructor: when one of them
    does not resolve, [from_dict] raises what the resolution raised and no
    client has been made (the world is as it was). *)
Theorem from_dict_fails_before_construction
    (data : SerializedComponent SecretDescriptor) environ w e :
  (∀ d, ser_api_key (init_parameters data) = Some d →
        Secret_from_dict d = Raised e →
        deserialize data environ w = (Raised e, w))
  ∧ (∀ d, (∀ d', ser_api_key (init_parameters data) = Some d' →
                  ∃ s, Secret_from_dict d' = Returned s) →
          ser_azure_ad_token (init_parameters data) = Some d →
          Secret_from_dict d = Raised e →
          deserialize data environ w = (Raised e, w))
  ∧ (∀ name, (∀ d', ser_api_key (init_parameters data) = Some d'
                     ∨ ser_azure_ad_token (init_parameters data) = Some d' →
                     ∃ s, Secret_from_dict d' = Returned s) →
             ser_azure_ad_token_provider (init_parameters data) = Some name →
             name ≠ "" →
             deserialize_callable name = Raised e →
             deserialize data environ w = (Raised e, w)).
Proof.
  assert (Hok : ∀ k : option SecretDescriptor,
            (∀ d', k = Some d' → ∃ s, Secret_from_dict d' = Returned s) →
            ∃ v, deserialize_secret Secret_from_dict k w = (Returned v, w)).
  { intros [d'|] Hk; [|eexists; reflexivity].
    destruct (Hk d' eq_refl) as [s Hs]. exists (Some s).
    unfold deserialize_secret, bind, pure_call. rewrite Hs. reflexivity. }
  split; [|split].
  - intros d Hkey Hraise. unfold from_dict, deserialize_secret.
    rewrite Hkey. unfold bind, pure_call. rewrite Hraise. reflexivity.
  - intros d Hkey Htoken Hraise. unfold from_dict.
    destruct (Hok _ Hkey) as [v Hv].
    unfold bind at 1. rewrite Hv.
    unfold bind at 1, deserialize_secret. rewrite Htoken.
    unfold bind, pure_call. rewrite Hraise. reflexivity.
  - intros name Hsecrets Hname Hne Hraise. unfold from_dict.
    destruct (Hok (ser_api_key (init_parameters data))) as [v1 Hv1]; [intros; eauto|].
    destruct (Hok (ser_azure_ad_token (init_parameters data))) as [v2 Hv2]; [intros; eauto|].
    unfold bind at 1. rewrite Hv1. unfold bind at 1. rewrite Hv2.
    unfold bind at 1. rewrite Hname.
    destruct (String.eqb_spec name ""); [congruence|]. simpl.
    unfold bind, pure_call. rewrite Hraise. reflexivity.
Qed.

Lemma create_client_same_secrets (a : Attributes Callable) env1 env2 w :
  (∀ s, self_api_key a = Some s ∨ self_azure_ad_token a = Some s →
        resolve_value s env1 = resolve_value s env2) →
  new_client a env1 w = new_client a env2 w.
Proof.
  intros Hsame. unfold create_client.
  assert (Hres : ∀ k : option Secret,
            (k = self_api_key a ∨ k = self_azure_ad_token a) →
            @resolve_optional World resolve_value k env1
            = @resolve_optional World resolve_value k env2).
  { intros [s|] Hk; [|reflexivity]. unfold resolve_optional.
    rewrite (Hsame s); [reflexivity|]. destruct Hk as [<-|<-]; auto. }
  rewrite (Hres (self_api_key a)), (Hres (self_azure_ad_token a)) by auto.
  reflexivity.
Qed.

(** Of the environment, reconstruction reads only the secrets.  For the
    serialized form of a constructed component, [from_dict] gives the same
    result in any two environments in which the component's secrets
    resolve alike, whatever AZURE_OPENAI_ENDPOINT, OPENAI_TIMEOUT and
    OPENAI_MAX_RETRIES hold there: endpoint, timeout and retry count come
    from the record. *)
Theorem from_dict_reads_only_secrets_from_environment
    (args : InitArgs Callable) env0 w0 c w1 data env1 env2 w :
  init args env0 w0 = (Returned c, w1) →
  secrets_resolvable SecretDescriptor Secret_to_dict Secret_from_dict →
  (∀ p, init_azure_ad_token_provider args = Some p →
        provider_named Callable serialize_callable deserialize_callable p) →
  serialize c = Returned data →
  (∀ s, self_api_key (attributes c) = Some s ∨ self_azure_ad_token (attributes c) = Some s →
        resolve_value s env1 = resolve_value s env2) →
  deserialize data env1 w = deserialize data env2 w.
Proof.
  intros Hinit Hsecret Hprov Hser Hsame.
  destruct (from_dict_to_dict _ _ _ _ _ _ _ _ _ _ _ _ _ _ _ _ _ _ _ env1 w
              Hinit Hsecret Hprov) as (data1 & Hser1 & _ & _ & _ & Hback1).
  destruct (from_dict_to_dict _ _ _ _ _ _ _ _ _ _ _ _ _ _ _ _ _ _ _ env2 w
              Hinit Hsecret Hprov) as (data2 & Hser2 & _ & _ & _ & Hback2).
  assert (data1 = data) by congruence. assert (data2 = data) by congruence. subst.
  rewrite Hback1, Hback2. unfold bind.
  rewrite (create_client_same_secrets _ env1 env2 w Hsame). reflexivity.
Qed.

End ReconstructionFacts.

(** A descriptor reader that knows no secret without a name. *)
Definition failing_Secret_from_dict (d : string * bool) : PyResult Secret :=
  if String.eqb d.1 "" then Raised (ValueError "unknown secret type")
  else demo_Secret_from_dict d.

(** The serialized form of [keyed_component]. *)
Definition keyed_data : SerializedComponent (string * bool) :=
  {| ser_type := class_name;
     init_parameters :=
       {| ser_azure_endpoint := demo_endpoint;
          ser_azure_deployment := "text-embedding-ada-002";
          ser_dimensions := None;
          ser_organization := None;
          ser_api_version := Some "2023-05-15";
          ser_prefix := "";
          ser_suffix := "";
          ser_batch_size := 32;
          ser_progress_bar := true;
          ser_meta_fields_to_embed := [];
          ser_embedding_separator := String newline EmptyString;
          ser_api_key := Some ("AZURE_OPENAI_API_KEY", true);
          ser_azure_ad_token := None;
          ser_timeout := float_of_nat 30;
          ser_max_retries := 5;
          ser_default_headers := ∅;
          ser_azure_ad_token_provider := Some "get_token";
          ser_http_client_kwargs := None |} |}.

(** The serialized form of [keyed_component] with a nameless descriptor
    in place of the API key. *)
Definition broken_key_data : SerializedComponent (string * bool) :=
  {| ser_type := ser_type keyed_data;
     init_parameters :=
       {| ser_azure_endpoint := ser_azure_endpoint (init_parameters keyed_data);
          ser_azure_deployment := ser_azure_deployment (init_parameters keyed_data);
          ser_dimensions := ser_dimensions (init_parameters keyed_data);
          ser_organization := ser_organization (init_parameters keyed_data);
          ser_api_version := ser_api_version (init_parameters keyed_data);
          ser_prefix := ser_prefix (init_parameters keyed_data);
          ser_suffix := ser_suffix (init_parameters keyed_data);
          ser_batch_size := ser_batch_size (init_parameters keyed_data);
          ser_progress_bar := ser_progress_bar (init_parameters keyed_data);
          ser_meta_fields_to_embed := ser_meta_fields_to_embed (init_parameters keyed_data);
          ser_embedding_separator := ser_embedding_separator (init_parameters keyed_data);
          ser_api_key := Some ("", true);
          ser_azure_ad_token := ser_azure_ad_token (init_parameters keyed_data);
          ser_timeout := ser_timeout (init_parameters keyed_data);
          ser_max_retries := ser_max_retries (init_parameters keyed_data);
          ser_default_headers := ser_default_headers (init_parameters keyed_data);
          ser_azure_ad_token_provider :=
            ser_azure_ad_token_provider (init_parameters keyed_data);
          ser_http_client_kwargs := ser_http_client_kwargs (init_parameters keyed_data) |} |}.

Lemma from_dict_fails_before_construction_witness :
  from_dict demo_float demo_int demo_resolve_value demo_httpx_Client demo_AzureOpenAI
    failing_Secret_from_dict demo_deserialize_callable broken_key_data azure_environ 0
  = (Raised (ValueError "unknown secret type"), 0).
Proof.
  apply (proj1 (from_dict_fails_before_construction
                  string (ClientArgs string unit) unit nat
                  demo_float demo_int demo_resolve_value demo_httpx_Client demo_AzureOpenAI
                  (string * bool)%type failing_Secret_from_dict demo_deserialize_callable
                  broken_key_data azure_environ 0 (ValueError "unknown secret type"))
           ("", true)).
  - reflexivity.
  - reflexivity.
Defined.

Lemma from_dict_reads_only_secrets_from_environment_witness :
  demo_from_dict keyed_data azure_environ 1 = demo_from_dict keyed_data bad_timeout_environ 1.
Proof.
  apply (from_dict_reads_only_secrets_from_environment
           string (ClientArgs string unit) unit nat
           demo_float demo_int demo_resolve_value demo_httpx_Client demo_AzureOpenAI
           (string * bool)%type demo_Secret_to_dict demo_Secret_from_dict
           demo_serialize_callable demo_deserialize_callable
           keyed_args azure_environ 0 keyed_component 1 keyed_data
           azure_environ bad_timeout_environ 1).
  - reflexivity.
  - intros [name strict]. reflexivity.
  - intros p [= <-]. exists "get_token", "get_token". repeat split. discriminate.
  - reflexivity.
  - intros s [[= <-]|H]; [reflexivity|discriminate].
Defined.
